(** * Lib/urllib/url.py: URLPath, URLQuery and URL

    A shallow embedding of the three classes of [Lib/urllib/url.py] and the
    properties of their constructors, setters and renderers.

    Conventions of the embedding.
    - A Python [str] is a [string] holding the UTF-8 encoding of the text.
      Every separator, character class and literal of the module is ASCII,
      so splitting, membership tests and [urllib.parse.quote] (which works
      on the UTF-8 bytes) read the same on either view.
    - A raised exception is a value: [Raise e].  A method that mutates
      [self] is a function from the state before to the outcome paired with
      the state after, so the state left behind by a raising call can be
      observed.
    - An attribute that was never assigned is [None] at the outer [option];
      an attribute assigned Python's [None] is [Some PyNone]. *)

From Stdlib Require Import String Ascii List Bool ZArith NArith Lia DecimalString.
Import ListNotations.
Open Scope string_scope.

(** ** Exceptions and outcomes *)

Inductive exn : Type :=
| ValueError (msg : string)
| TypeError (msg : string)
| AttributeError (msg : string)
| UnicodeError (msg : string).

Inductive result (A : Type) : Type :=
| Ok (a : A)
| Raise (e : exn).
Arguments Ok {A} a.
Arguments Raise {A} e.

(** A computation over a mutable object of type [S]: the state survives a
    raise, as the object does in Python. *)
Definition M (S A : Type) : Type := S -> result A * S.

Definition ret {S A} (a : A) : M S A := fun s => (Ok a, s).
Definition raise {S A} (e : exn) : M S A := fun s => (Raise e, s).
Definition bind {S A B} (m : M S A) (k : A -> M S B) : M S B :=
  fun s => match m s with
           | (Ok a, s') => k a s'
           | (Raise e, s') => (Raise e, s')
           end.
Definition get {S} : M S S := fun s => (Ok s, s).
Definition put {S} (s : S) : M S unit := fun _ => (Ok tt, s).
Definition lift {S A} (r : result A) : M S A := fun s => (r, s).

Declare Scope py_scope.
Delimit Scope py_scope with py.
Notation "x <- m ;; k" := (bind m (fun x => k))
  (at level 61, m at next level, right associativity) : py_scope.
Notation "m ;;; k" := (bind m (fun _ => k))
  (at level 61, right associativity) : py_scope.

(** ** Python strings *)

Module PyStr.

(** [c in s] for a one-character [c]. *)
Fixpoint mem_char (c : ascii) (s : string) : bool :=
  match s with
  | EmptyString => false
  | String d s' => Ascii.eqb c d || mem_char c s'
  end.

(** [all(p(character) for character in s)]. *)
Fixpoint all_chars (p : ascii -> bool) (s : string) : bool :=
  match s with
  | EmptyString => true
  | String c s' => p c && all_chars p s'
  end.

(** [not s]. *)
Definition falsy (s : string) : bool :=
  match s with EmptyString => true | _ => false end.

(** [s.split(sep)] for a one-character separator: never the empty list,
    [''.split('/') == ['']]. *)
Fixpoint split (sep : ascii) (s : string) : list string :=
  match s with
  | EmptyString => [EmptyString]
  | String c s' =>
      if Ascii.eqb c sep then EmptyString :: split sep s'
      else match split sep s' with
           | [] => [String c EmptyString]
           | x :: xs => String c x :: xs
           end
  end.

(** [s.split(sep, 1)]: cut at the first separator only. *)
Fixpoint split1 (sep : ascii) (s : string) : list string :=
  match s with
  | EmptyString => [EmptyString]
  | String c s' =>
      if Ascii.eqb c sep then [EmptyString; s']
      else match split1 sep s' with
           | [] => [String c EmptyString]
           | x :: xs => String c x :: xs
           end
  end.

(** [sep.join(l)]. *)
Fixpoint join (sep : string) (l : list string) : string :=
  match l with
  | [] => EmptyString
  | [x] => x
  | x :: rest => x ++ sep ++ join sep rest
  end.

(** [s.replace(c, "")] for a one-character [c]. *)
Fixpoint remove_char (c : ascii) (s : string) : string :=
  match s with
  | EmptyString => EmptyString
  | String d s' =>
      if Ascii.eqb d c then remove_char c s' else String d (remove_char c s')
  end.

(** [s.replace(c, d)] for one-character [c] and [d]. *)
Fixpoint replace_char (c d : ascii) (s : string) : string :=
  match s with
  | EmptyString => EmptyString
  | String e s' =>
      String (if Ascii.eqb e c then d else e) (replace_char c d s')
  end.

Definition is_ascii (c : ascii) : bool := (N_of_ascii c <? 128)%N.

Definition lower_char (c : ascii) : ascii :=
  let n := N_of_ascii c in
  if ((65 <=? n) && (n <=? 90))%N then ascii_of_N (n + 32) else c.

(** [s.lower()]; the module calls it on ASCII text only (a validated
    scheme, an IDNA-encoded host). *)
Fixpoint lower (s : string) : string :=
  match s with
  | EmptyString => EmptyString
  | String c s' => String (lower_char c) (lower s')
  end.

Definition is_ascii_digit (c : ascii) : bool :=
  let n := N_of_ascii c in ((48 <=? n) && (n <=? 57))%N.

(** [string.ascii_letters], [string.digits]. *)
Definition ascii_letters : string :=
  "abcdefghijklmnopqrstuvwxyzABCDEFGHIJKLMNOPQRSTUVWXYZ".
Definition digits : string := "0123456789".

End PyStr.

(** ** What the module imports

    Modelled from the spec: the bodies of the built-in codecs, of
    [str.isdigit] and of [ipaddress.IPv6Address] are not part of [url.py].
    Their behaviour on ASCII text is written out where they are used
    ([URL.idna], [URL.IPv6Address], [URL.isdigit]); what they do beyond it
    is a parameter. *)
Class Externals : Type := {
  (** [bytes.decode()] (UTF-8, strict). *)
  bytes_decode : string -> result string;
  (** [str.encode("idna")] on text that is not pure ASCII (nameprep and
      punycode). *)
  idna_nonascii : string -> result string;
  (** [ipaddress.IPv6Address] on text with at least three [:]-separated
      parts: [true] when it parses. *)
  ipv6_parse : string -> bool;
  (** [str.isdigit] on non-empty text that is not pure ASCII. *)
  isdigit_nonascii : string -> bool
}.

(** ** urllib.parse *)

Module Parse.
Import PyStr.

(** [_ALWAYS_SAFE]. *)
Definition _ALWAYS_SAFE : string :=
  "ABCDEFGHIJKLMNOPQRSTUVWXYZabcdefghijklmnopqrstuvwxyz0123456789_.-~".

(** [scheme_chars]. *)
Definition scheme_chars : string :=
  "abcdefghijklmnopqrstuvwxyzABCDEFGHIJKLMNOPQRSTUVWXYZ0123456789+-.".

(** [_UNSAFE_URL_BYTES_TO_REMOVE]: tab, carriage return, line feed. *)
Definition _UNSAFE_URL_BYTES_TO_REMOVE : list ascii :=
  [ascii_of_N 9; ascii_of_N 13; ascii_of_N 10].

Definition hex_digit (n : N) : ascii :=
  match String.get (N.to_nat n) "0123456789ABCDEF" with
  | Some c => c
  | None => "0"%char
  end.

(** ['%{:02X}'.format(b)]. *)
Definition pct_encode (c : ascii) : string :=
  let n := N_of_ascii c in
  String "%" (String (hex_digit (n / 16)) (String (hex_digit (n mod 16)) "")).

(** The characters an escape is written with. *)
Definition pct_alphabet : string := "%0123456789ABCDEF".

(** A byte is left alone when it is in [_ALWAYS_SAFE] or is an ASCII
    character of [safe]. *)
Definition is_safe (safe : string) (c : ascii) : bool :=
  mem_char c _ALWAYS_SAFE || (is_ascii c && mem_char c safe).

Definition quote_byte (safe : string) (c : ascii) : string :=
  if is_safe safe c then String c "" else pct_encode c.

(** Modelled from the spec: [urllib.parse.quote], whose body is not in
    [url.py].  Percent-encoding escapes a byte of the UTF-8 text as [%XX]
    in upper-case hexadecimal; the unreserved characters are never
    escaped, nor are the ASCII characters listed in [safe]. *)
Fixpoint quote (safe : string) (s : string) : string :=
  match s with
  | EmptyString => EmptyString
  | String c s' => quote_byte safe c ++ quote safe s'
  end.

(** The default of the [safe] parameter in the signature
    [quote(string, safe='/', encoding=None, errors=None)]: the value in
    force wherever [url.py] calls [parse.quote] with one argument. *)
Definition quote_default_safe : string := "/".

(** Modelled from the spec: [urllib.parse.quote_plus], not in [url.py],
    as [urlencode] applies it to [str] keys and values, with [safe='']:
    the escape of [quote], a space written [+]. *)
Definition quote_plus (s : string) : string :=
  if mem_char " " s
  then replace_char " " "+" (quote " " s)
  else quote "" s.

(** Modelled from the spec: [urllib.parse.urlencode], not in [url.py],
    on a mapping from [str] to [str]: keys and values are escaped, a pair
    is joined with [=] and the entries with [&]. *)
Definition urlencode (d : list (string * string)) : string :=
  join "&" (map (fun kv => quote_plus (fst kv) ++ "=" ++ quote_plus (snd kv)) d).

End Parse.

(** ** class URLPath(list[str]) *)

Module URLPath.
Import PyStr Parse.
Local Open Scope py_scope.

(** The list of segments the object holds. *)
Definition t : Type := list string.

(** What [__init__] can be handed: a [str], an iterable of strings
    ([str(element)] is then the element itself), [None], or an object
    that is neither, with its type name and its truth value. *)
Inductive init_arg : Type :=
| FromStr (s : string)
| FromIterable (l : list string)
| FromNone
| FromOther (type_name : string) (truth : bool).

Definition __init__ (path : init_arg) : result t :=
  match path with
  | FromStr s => Ok (split "/" s)
  | FromIterable l => Ok l
  | FromNone => Ok []
  | FromOther _ false => Ok []
  | FromOther name true =>
      Raise (ValueError ("Path of type " ++ name ++ " is not allowed. "
                         ++ "Path initializer only accepts Iterable and str."))
  end.

Definition __str__ (self : t) : string :=
  join "/" (map (quote quote_default_safe) self).

Definition __repr__ (self : t) : string := __str__ self.

Definition copy (self : t) : result t := __init__ (FromIterable self).

(** Python's clamping of a slice bound against the length. *)
Definition slice_bound (len i : Z) : nat :=
  Z.to_nat (if (i <? 0)%Z then Z.max 0 (len + i) else Z.min i len).

Definition len (self : t) : Z := Z.of_nat (List.length self).

(** [self[:stop]] and [self[start:]]: [__getitem__] on a slice wraps the
    sliced list in a new [URLPath]. *)
Definition getitem_upto (self : t) (stop : Z) : result t :=
  __init__ (FromIterable (firstn (slice_bound (len self) stop) self)).

Definition getitem_from (self : t) (start : Z) : result t :=
  __init__ (FromIterable (skipn (slice_bound (len self) start) self)).

(** The value assigned: a [str], a byte string, or another iterable. *)
Inductive value : Type :=
| VStr (s : string)
| VBytes (b : string)
| VSeq (l : list string).

Definition _normalize_index (index length : Z) : Z :=
  if (index <? 0)%Z then (length + index)%Z else index.

(** The three operators of the expression handed to [extend], on the
    operands that reach them.  [list] defines [__add__] only: it has
    neither [__pos__] nor [__truediv__]. *)
Definition list_add (a b : list string) : result (list string) :=
  Ok (a ++ b)%list.

Definition list_pos (a : t) : result (list string) :=
  Raise (TypeError "bad operand type for unary +: 'URLPath'").

Definition list_truediv (a b : list string) : result (list string) :=
  Raise (TypeError "unsupported operand type(s) for /: 'list' and 'list'").

(** [__setitem__]: the argument of [extend] is
    [copy[:n] + list(values) / + copy[n + 1:]], that is
    [copy[:n] + (list(values) / (+ copy[n + 1:]))], evaluated left to
    right after [self.clear()]. *)
Definition __setitem__ `{Externals} (_key : Z) (_value : value) : M t unit :=
  values <- lift (match _value with
                  | VStr s => Ok (split "/" s)
                  | VBytes b => match bytes_decode b with
                                | Ok s => Ok (split "/" s)
                                | Raise e => Raise e
                                end
                  | VSeq l => Ok l
                  end) ;;
  self <- get ;;
  copy <- lift (copy self) ;;
  put [] ;;;
  left <- lift (getitem_upto copy (_normalize_index _key (len copy))) ;;
  right <- lift (getitem_from copy (_normalize_index _key (len copy) + 1)) ;;
  positive <- lift (list_pos right) ;;
  quotient <- lift (list_truediv values positive) ;;
  total <- lift (list_add left quotient) ;;
  self' <- get ;;
  put (self' ++ total)%list.

(** The splice as the specification words it: the element at the
    normalized index is replaced by the elements of [values]. *)
Definition spec_splice (self : t) (_key : Z) (values : list string) : t :=
  let n := _normalize_index _key (len self) in
  (firstn (Z.to_nat n) self ++ values ++ skipn (Z.to_nat n + 1) self)%list.

End URLPath.

(** ** class URLQuery(dict) *)

Module URLQuery.
Import Parse.

(** A dict from [str] to [str], in insertion order. *)
Definition t : Type := list (string * string).

Definition __str__ (self : t) : string := urlencode self.

Definition dict (self : t) : list (string * string) := self.

End URLQuery.

(** ** class URL *)

Module URL.
Import PyStr Parse.
Local Open Scope py_scope.

Definition _GEN_DELIMS : string := ":/?#[]@".
Definition _SUB_DELIMS : string := "!$&'()*+,;=".
Definition _RESERVED : string := _GEN_DELIMS ++ _SUB_DELIMS.
Definition _UNRESERVED : string := ascii_letters ++ digits ++ "-_.~".
Definition _PCT : string := "%".

(** The values the scalar arguments and attributes take. *)
Inductive pyval : Type :=
| PyNone
| PyStr (s : string)
| PyInt (z : Z).

(** [bool(v)]. *)
Definition truthy (v : pyval) : bool :=
  match v with
  | PyNone => false
  | PyStr s => negb (falsy s)
  | PyInt z => negb (z =? 0)%Z
  end.

(** [str(v)], as an f-string formats it. *)
Definition py_str (v : pyval) : string :=
  match v with
  | PyNone => "None"
  | PyStr s => s
  | PyInt z => NilZero.string_of_int (Z.to_int z)
  end.

(** The instance attributes.  [path] and [query] are annotated in the
    class body; an annotation alone creates no attribute. *)
Record t : Type := mk {
  _scheme : option string;
  _userinfo : option pyval;
  _host : option string;
  _port : option pyval;
  path : option URLPath.t;
  query : option URLQuery.t
}.

(** A new object, before [__init__] has run. *)
Definition blank : t := mk None None None None None None.

Definition set_scheme (v : string) : M t unit :=
  fun self => (Ok tt, mk (Some v) (_userinfo self) (_host self) (_port self)
                        (path self) (query self)).
Definition set_userinfo (v : pyval) : M t unit :=
  fun self => (Ok tt, mk (_scheme self) (Some v) (_host self) (_port self)
                        (path self) (query self)).
Definition set_host (v : string) : M t unit :=
  fun self => (Ok tt, mk (_scheme self) (_userinfo self) (Some v) (_port self)
                        (path self) (query self)).
Definition set_port (v : pyval) : M t unit :=
  fun self => (Ok tt, mk (_scheme self) (_userinfo self) (_host self) (Some v)
                        (path self) (query self)).

(** Reading an attribute that was never assigned raises. *)
Definition read {A} (name : string) (field : t -> option A) : M t A :=
  fun self => match field self with
              | Some v => (Ok v, self)
              | None => (Raise (AttributeError name), self)
              end.

Definition in_set (set : string) (c : ascii) : bool := mem_char c set.

(** *** scheme *)

Definition scheme_getter : M t string := read "_scheme" _scheme.

Definition scheme_setter (_scheme : string) : M t unit :=
  if falsy _scheme then raise (ValueError "Scheme cannot be empty.")
  else if negb (all_chars (in_set scheme_chars) _scheme)
  then raise (ValueError "Scheme contains illegal characters.")
  else if negb (match _scheme with
                | String c _ => mem_char c ascii_letters
                | EmptyString => false
                end)
  then raise (ValueError "Scheme is of illegal format")
  else set_scheme (lower _scheme).

(** *** userinfo *)

Definition userinfo_getter : M t pyval := read "_userinfo" _userinfo.

Definition userinfo_safe : string := ":" ++ _SUB_DELIMS ++ _PCT.
Definition userinfo_allowed : string :=
  _SUB_DELIMS ++ ":" ++ _UNRESERVED ++ _PCT.

Definition userinfo_setter (_userinfo : pyval) : M t unit :=
  if negb (truthy _userinfo) then set_userinfo PyNone
  else match _userinfo with
       | PyStr s =>
           let _userinfo := quote userinfo_safe s in
           if negb (all_chars (in_set userinfo_allowed) _userinfo)
           then raise (ValueError "User info contains illegal characters.")
           else set_userinfo (PyStr _userinfo)
       | _ => raise (TypeError "quote_from_bytes() expected bytes")
       end.

(** *** host *)

Definition host_getter : M t string := read "_host" _host.

(** Modelled from the spec: the IDNA codec behind
    [s.encode("idna").decode("utf-8")] is not in [url.py].  It exists for
    non-ASCII labels; on pure ASCII text it returns the text itself once
    every label but the last has between 1 and 63 characters and the last
    has fewer than 64, and raises [UnicodeError] otherwise. *)
Definition idna `{Externals} (s : string) : result string :=
  if all_chars is_ascii s then
    let labels := split "." s in
    if negb (forallb (fun label => let n := String.length label in
                                   (0 <? n)%nat && (n <? 64)%nat)
                     (removelast labels))
    then Raise (UnicodeError "label empty or too long")
    else if (64 <=? String.length (last labels ""))%nat
    then Raise (UnicodeError "label too long")
    else Ok s
  else idna_nonascii s.

(** Modelled from the spec: [ipaddress.IPv6Address] is not in [url.py].
    [true] when [s] parses as an IPv6 literal; text with fewer than three
    [:]-separated parts raises [AddressValueError] outright. *)
Definition IPv6Address `{Externals} (s : string) : bool :=
  if (List.length (split ":" s) <? 3)%nat then false else ipv6_parse s.

Definition host_allowed : string := _SUB_DELIMS ++ _PCT ++ _UNRESERVED.

Definition host_setter `{Externals} (_host : pyval) : M t unit :=
  if negb (truthy _host) then raise (ValueError "Host cannot be empty.")
  else match _host with
       | PyStr s =>
           _host <- lift (idna s) ;;
           if negb (all_chars (in_set host_allowed) _host)
           then raise (ValueError "Host contains illegal characters.")
           else if IPv6Address _host
           then set_host ("[" ++ _host ++ "]")
           else set_host (lower _host)
       | _ => raise (AttributeError "encode")
       end.

(** *** port *)

Definition port_getter : M t pyval := read "_port" _port.

(** Modelled from the spec: [s.isdigit()], a built-in: on ASCII text,
    non-empty and all digits. *)
Definition isdigit `{Externals} (s : string) : bool :=
  if all_chars is_ascii s
  then negb (falsy s) && all_chars is_ascii_digit s
  else isdigit_nonascii s.

Definition port_setter `{Externals} (_port : pyval) : M t unit :=
  if negb (truthy _port) then set_port PyNone
  else match _port with
       | PyStr s =>
           if negb (isdigit s)
           then raise (ValueError "Port cannot be a non-numerical value.")
           else set_port (PyStr s)
       | _ => set_port _port
       end.

(** *** authority *)

Definition authority_getter : M t string :=
  host <- host_getter ;;
  if falsy host
  then raise (ValueError "Cannot get authority while host is empty.")
  else
    userinfo <- userinfo_getter ;;
    let _authority := if truthy userinfo then py_str userinfo ++ "@" else "" in
    host <- host_getter ;;
    let _authority := _authority ++ host in
    port <- port_getter ;;
    ret (if truthy port then _authority ++ ":" ++ py_str port else _authority).

Definition _clear_unsafe_bytes (s : string) : string :=
  fold_left (fun acc char => remove_char char acc) _UNSAFE_URL_BYTES_TO_REMOVE s.

Definition authority_setter `{Externals} (_authority : pyval) : M t unit :=
  if negb (truthy _authority) then raise (ValueError "Authority cannot be empty.")
  else match _authority with
       | PyStr s =>
           let _authority := _clear_unsafe_bytes s in
           if falsy _authority then ret tt
           else
             let _authority := quote "@:" _authority in
             let _authority := split "@" _authority in
             (if (0 <? List.length _authority)%nat then
                let host_and_port := split1 ":" (last _authority "") in
                (if (0 <? List.length host_and_port)%nat
                 then host_setter (PyStr (nth 0 host_and_port ""))
                 else ret tt) ;;;
                (if (1 <? List.length host_and_port)%nat
                 then set_port (PyStr (nth 1 host_and_port ""))
                 else ret tt)
              else ret tt) ;;;
             (if (1 <? List.length _authority)%nat
              then set_userinfo (PyStr (nth 0 _authority ""))
              else ret tt)
       | _ => raise (AttributeError "replace")
       end.

(** *** __init__ *)

Inductive path_arg : Type :=
| PathNone
| PathStr (s : string)
| PathList (l : list string).

Inductive query_arg : Type :=
| QueryNone
| QueryStr (s : string)
| QueryDict (d : list (string * string)).

Record args : Type := mk_args {
  arg_scheme : string;
  arg_authority : pyval;
  arg_userinfo : pyval;
  arg_host : pyval;
  arg_port : pyval;
  arg_path : path_arg;
  arg_query : query_arg;
  arg_segment : pyval
}.

(** The value the local name [path] is rebound to. *)
Definition normalized_path (path : path_arg) : path_arg :=
  match path with
  | PathList l => PathStr (join "/" (map (quote "") l))
  | PathStr s => if falsy s then path else PathStr (quote quote_default_safe s)
  | PathNone => PathNone
  end.

(** The value the local name [query] is rebound to. *)
Definition normalized_query (query : query_arg) : query_arg :=
  match query with
  | QueryDict d =>
      QueryStr (urlencode (map (fun kv => (quote quote_default_safe (fst kv),
                                           quote quote_default_safe (snd kv))) d))
  | QueryStr s => if falsy s then query else QueryStr (quote "?&=" s)
  | QueryNone => QueryNone
  end.

Definition __init__ `{Externals} (a : args) : M t unit :=
  scheme_setter (arg_scheme a) ;;;
  if truthy (arg_authority a)
     && (truthy (arg_host a) || truthy (arg_port a) || truthy (arg_userinfo a))
  then raise (ValueError ("Cannot define authority together with one "
                          ++ "or more of its component parts."))
  else if negb (truthy (arg_authority a)) && negb (truthy (arg_host a))
  then raise (ValueError "Cannot leave the host field empty.")
  else
    (if truthy (arg_authority a)
     then authority_setter (arg_authority a)
     else userinfo_setter (arg_userinfo a) ;;;
          host_setter (arg_host a) ;;;
          port_setter (arg_port a)) ;;;
    let path := normalized_path (arg_path a) in
    let query := normalized_query (arg_query a) in
    ret tt.

(** [URL(...)]: the object [__init__] leaves behind, or its exception. *)
Definition new `{Externals} (a : args) : result t :=
  match __init__ a blank with
  | (Ok _, self) => Ok self
  | (Raise e, _) => Raise e
  end.

Definition __str__ (self : t) : string := "<WIP>".

(** The rendering as the specification words it:
    [scheme ":" ["//" authority] path ["?" query] ["#" fragment]], with
    the authority present when the host is set. *)
Definition spec_toString (self : t) (fragment : option string) : string :=
  match _scheme self with Some s => s | None => "" end ++ ":"
  ++ match authority_getter self with
     | (Ok a, _) => "//" ++ a
     | (Raise _, _) => ""
     end
  ++ match path self with Some p => URLPath.__str__ p | None => "" end
  ++ match query self with
     | Some q => if falsy (URLQuery.__str__ q) then "" else "?" ++ URLQuery.__str__ q
     | None => ""
     end
  ++ match fragment with Some f => "#" ++ f | None => "" end.

End URL.

(** ** Vocabulary of the statements *)

Module Words.
Import PyStr Parse.
Local Open Scope py_scope.

(** A segment of plain ASCII with no reserved character. *)
Definition plain_segment (seg : string) : bool :=
  all_chars (fun c => is_ascii c && negb (mem_char c URL._RESERVED)) seg.

(** A segment of unreserved characters only. *)
Definition unreserved_segment (seg : string) : bool :=
  all_chars (URL.in_set URL._UNRESERVED) seg.

(** Building a path from the segments [l], rendering it and building a
    path from the rendering gives the first path again. *)
Definition roundtrips (l : list string) : Prop :=
  exists p,
    URLPath.__init__ (URLPath.FromIterable l) = Ok p /\
    URLPath.__init__ (URLPath.FromStr (URLPath.__str__ p)) = Ok p.

(** [[userinfo "@"] host [":" port]]. *)
Definition compose (user : option string) (host : string)
                   (port : option string) : string :=
  match user with Some u => u ++ "@" | None => "" end
  ++ host
  ++ match port with Some p => ":" ++ p | None => "" end.

(** The escaped text after the last [@]: [host [":" port]]. *)
Definition escaped_remainder (host : string) (port : option string) : string :=
  quote "@:" host ++ match port with
                     | Some p => String ":" (quote "@:" p)
                     | None => ""
                     end.

(** An assignment that happens only when there is a value. *)
Definition when_some {A} (f : A -> M URL.t unit) (o : option A) : M URL.t unit :=
  match o with
  | Some a => f a
  | None => ret tt
  end.

(** A computation that leaves the [path] and [query] attributes as
    they were. *)
Definition keeps_path_query {A} (m : M URL.t A) : Prop :=
  forall self,
    URL.path (snd (m self)) = URL.path self
    /\ URL.query (snd (m self)) = URL.query self.

(** A computation that leaves the object as it was when it raises. *)
Definition keeps_self_on_raise {A} (m : M URL.t A) : Prop :=
  forall self e, fst (m self) = Raise e -> snd (m self) = self.

End Words.

(** ** The externals on ASCII text

    An instance for running the module on concrete ASCII inputs, where
    the codecs are the identity and no parameter is consulted for an
    answer; text beyond ASCII is refused. *)
Definition ascii_text : Externals := {|
  bytes_decode := fun b =>
    if PyStr.all_chars PyStr.is_ascii b then Ok b
    else Raise (UnicodeError "'utf-8' codec can't decode");
  idna_nonascii := fun _ => Raise (UnicodeError "non-ASCII label");
  ipv6_parse := fun _ => false;
  isdigit_nonascii := fun _ => false
|}.

(** ** class URL: the deprecated username and password accessors *)

Module Accessors.
Import PyStr Parse URL.

(** The message of the [DeprecationWarning] every accessor issues before
    anything else.  Under the default warning filters the call then goes
    on; that is the behaviour written here. *)
Definition deprecation : string :=
  "Use of the 'user:password' format in userinfo is "
  ++ "deprecated according to RFC 3986".

(** What an accessor can raise: an exception of the kinds the setters
    raise, or [IndexError]. *)
Inductive error : Type :=
| Builtin (e : exn)
| IndexError (msg : string).

Inductive outcome (A : Type) : Type :=
| Returns (a : A)
| Raises (e : error).
Arguments Returns {A} a.
Arguments Raises {A} e.

(** A call of an accessor: the warnings it issued, its outcome and the
    object it leaves. *)
Record call (A : Type) : Type := mk_call {
  warned : list string;
  outcome_of : outcome A;
  after : URL.t
}.
Arguments mk_call {A} warned outcome_of after.
Arguments warned {A} c.
Arguments outcome_of {A} c.
Arguments after {A} c.

(** [self._userinfo.split(':')]: the attribute may be missing, and [None]
    has no [split]. *)
Definition userinfo_split (self : URL.t) : outcome (list string) :=
  match _userinfo self with
  | None => Raises (Builtin (AttributeError "_userinfo"))
  | Some (PyStr s) => Returns (split ":" s)
  | Some _ => Raises (Builtin (AttributeError "split"))
  end.

(** [l[i]] for [i >= 0]. *)
Definition item (l : list string) (i : nat) : outcome string :=
  match nth_error l i with
  | Some x => Returns x
  | None => Raises (IndexError "list index out of range")
  end.

(** [l[i] = v] for [i >= 0]. *)
Fixpoint assign (l : list string) (i : nat) (v : string) : outcome (list string) :=
  match l, i with
  | [], _ => Raises (IndexError "list assignment index out of range")
  | _ :: rest, O => Returns (v :: rest)
  | x :: rest, S i' =>
      match assign rest i' v with
      | Returns rest' => Returns (x :: rest')
      | Raises e => Raises e
      end
  end.

Definition username_getter (self : URL.t) : call string :=
  mk_call [deprecation]
          match userinfo_split self with
          | Returns pieces => item pieces 0
          | Raises e => Raises e
          end
          self.

Definition accessor_safe : string := _SUB_DELIMS ++ _PCT.

(** The body shared by the two setters, which differ in the index
    assigned: escape the new value, split the userinfo on [:], replace
    one piece, join again. *)
Definition piece_setter (index : nat) (value : string) (self : URL.t) : call unit :=
  let value := quote accessor_safe value in
  match userinfo_split self with
  | Returns userinfo =>
      match assign userinfo index value with
      | Returns userinfo =>
          mk_call [deprecation] (Returns tt)
                  (snd (set_userinfo (PyStr (join ":" userinfo)) self))
      | Raises e => mk_call [deprecation] (Raises e) self
      end
  | Raises e => mk_call [deprecation] (Raises e) self
  end.

Definition username_setter (_username : string) (self : URL.t) : call unit :=
  piece_setter 0 _username self.

(** The [IndexError] of [split(':')[1]] is caught and raised anew; the
    two literals of the message are adjacent, with no space between. *)
Definition password_getter (self : URL.t) : call string :=
  mk_call [deprecation]
          match userinfo_split self with
          | Returns pieces =>
              match item pieces 1 with
              | Returns x => Returns x
              | Raises (IndexError _) =>
                  Raises (IndexError ("Userinfo contained no password"
                                      ++ "that could be retrieved."))
              | Raises e => Raises e
              end
          | Raises e => Raises e
          end
          self.

Definition password_setter (_password : string) (self : URL.t) : call unit :=
  piece_setter 1 _password self.

End Accessors.

(** ** More vocabulary of the statements *)

Module Shapes.
Import PyStr Parse.

(** One of the bytes [_clear_unsafe_bytes] removes. *)
Definition unsafe_byte (c : ascii) : bool :=
  existsb (Ascii.eqb c) _UNSAFE_URL_BYTES_TO_REMOVE.

(** The characters of a stored scheme: lower-case letters, digits and
    [+-.]. *)
Definition stored_scheme_chars : string :=
  "abcdefghijklmnopqrstuvwxyz0123456789+-.".

(** The characters of a stored host: sub-delims, [%], lower-case
    letters, digits and [-_.~]. *)
Definition stored_host_chars : string :=
  URL._SUB_DELIMS ++ URL._PCT ++ "abcdefghijklmnopqrstuvwxyz0123456789-_.~".

(** The delimiters that end a userinfo or cannot appear in one. *)
Definition userinfo_excluded : string := "/?#[]@".

(** The characters of a userinfo that the authority setter stores as
    it is: unreserved characters and [:]. *)
Definition plain_userinfo_chars : string := URL._UNRESERVED ++ ":".

(** The characters of an authority that the setter neither removes nor
    escapes: unreserved characters, [@] and [:]. *)
Definition authority_text_chars : string := URL._UNRESERVED ++ "@:".

(** What the userinfo setter stores for an argument, when it is not
    [None]. *)
Definition stored_userinfo (v : URL.pyval) : option string :=
  match v with
  | URL.PyStr s => if falsy s then None else Some (quote URL.userinfo_safe s)
  | _ => None
  end.

(** What the port setter stores for an argument, as the authority
    getter formats it, when it is not [None]. *)
Definition stored_port (v : URL.pyval) : option string :=
  if URL.truthy v then Some (URL.py_str v) else None.

(** The characters a rendered path is written with. *)
Definition rendered_path_chars : string := URL._UNRESERVED ++ "/%".

(** The number of bytes [quote] escapes in [s]. *)
Fixpoint escaped_count (safe s : string) : nat :=
  match s with
  | EmptyString => 0
  | String c s' => (if is_safe safe c then 0 else 1) + escaped_count safe s'
  end.

End Shapes.

(** * Properties *)

(** Case analysis over the 256 bytes. *)
Ltac each_byte c := destruct c as [[] [] [] [] [] [] [] []].

(** ** Strings *)

Section StringFacts.
Import PyStr.

Lemma all_chars_app (p : ascii -> bool) (a b : string) :
  all_chars p (a ++ b) = all_chars p a && all_chars p b.
Proof.
  induction a as [|c a IH]; simpl; [reflexivity|].
  now rewrite IH, andb_assoc.
Qed.

Lemma all_chars_cons (p : ascii -> bool) (c : ascii) (s : string) :
  all_chars p (String c s) = p c && all_chars p s.
Proof. reflexivity. Qed.

Lemma all_chars_impl (p q : ascii -> bool) (s : string) :
  (forall c, p c = true -> q c = true) ->
  all_chars p s = true -> all_chars q s = true.
Proof.
  intros Hpq. induction s as [|c s IH]; simpl; [reflexivity|].
  intros H. apply andb_true_iff in H as [Hc Hs].
  now rewrite (Hpq _ Hc), (IH Hs).
Qed.

Lemma mem_char_app (c : ascii) (a b : string) :
  mem_char c (a ++ b) = mem_char c a || mem_char c b.
Proof.
  induction a as [|d a IH]; simpl; [reflexivity|].
  now rewrite IH, orb_assoc.
Qed.

(** A character outside [set] does not occur in text drawn from [set]. *)
Lemma all_chars_not_mem (set : string) (c : ascii) (s : string) :
  mem_char c set = false ->
  all_chars (fun d => mem_char d set) s = true ->
  mem_char c s = false.
Proof.
  intros Hc. induction s as [|d s IH]; simpl; [reflexivity|].
  intros H. apply andb_true_iff in H as [Hd Hs].
  rewrite (IH Hs), orb_false_r.
  destruct (Ascii.eqb_spec c d) as [->|]; [congruence | reflexivity].
Qed.

Lemma split_not_nil (sep : ascii) (s : string) : split sep s <> [].
Proof.
  destruct s as [|c s]; simpl; [discriminate|].
  destruct (Ascii.eqb c sep); [discriminate|].
  destruct (split sep s); discriminate.
Qed.

Lemma split_no_sep (sep : ascii) (s : string) :
  mem_char sep s = false -> split sep s = [s].
Proof.
  induction s as [|c s IH]; simpl; [reflexivity|].
  intros H. apply orb_false_iff in H as [Hc Hs].
  rewrite Ascii.eqb_sym, Hc, (IH Hs). reflexivity.
Qed.

(** Cutting at a separator cuts the list of pieces. *)
Lemma split_app_sep (sep : ascii) (a b : string) :
  split sep (a ++ String sep b) = (split sep a ++ split sep b)%list.
Proof.
  induction a as [|c a IH]; simpl.
  - now rewrite Ascii.eqb_refl.
  - destruct (Ascii.eqb c sep); [now rewrite IH|].
    rewrite IH. pose proof (split_not_nil sep a) as Hne.
    destruct (split sep a); [contradiction | reflexivity].
Qed.

Lemma split1_no_sep (sep : ascii) (s : string) :
  mem_char sep s = false -> split1 sep s = [s].
Proof.
  induction s as [|c s IH]; simpl; [reflexivity|].
  intros H. apply orb_false_iff in H as [Hc Hs].
  rewrite Ascii.eqb_sym, Hc, (IH Hs). reflexivity.
Qed.

Lemma split1_app_sep (sep : ascii) (a b : string) :
  mem_char sep a = false -> split1 sep (a ++ String sep b) = [a; b].
Proof.
  induction a as [|c a IH]; simpl.
  - now rewrite Ascii.eqb_refl.
  - intros H. apply orb_false_iff in H as [Hc Ha].
    rewrite Ascii.eqb_sym, Hc, (IH Ha). reflexivity.
Qed.

(** Joining pieces that hold no separator and splitting again gives the
    pieces back, provided there is at least one piece. *)
Lemma split_join (sep : ascii) (l : list string) :
  l <> [] ->
  Forall (fun x => mem_char sep x = false) l ->
  split sep (join (String sep "") l) = l.
Proof.
  induction l as [|x l IH]; [contradiction|].
  intros _ Hall. inversion Hall as [|? ? Hx Hl]; subst.
  destruct l as [|y l].
  - simpl. now apply split_no_sep.
  - change (join (String sep "") (x :: y :: l))
      with (x ++ String sep (join (String sep "") (y :: l))).
    rewrite split_app_sep, (split_no_sep _ _ Hx), IH; [reflexivity | discriminate | assumption].
Qed.

Lemma falsy_true (s : string) : falsy s = true -> s = "".
Proof. destruct s; [reflexivity | discriminate]. Qed.

End StringFacts.

(** ** Percent-encoding *)

Section QuoteFacts.
Import PyStr Parse.

Lemma pct_encode_alphabet (c : ascii) :
  all_chars (fun d => mem_char d pct_alphabet) (pct_encode c) = true.
Proof. each_byte c; reflexivity. Qed.

Lemma pct_encode_hex_always_safe (c : ascii) :
  match pct_encode c with
  | String _ rest => all_chars (fun d => mem_char d _ALWAYS_SAFE) rest
  | EmptyString => false
  end = true.
Proof. each_byte c; reflexivity. Qed.

Lemma quote_app (safe a b : string) :
  quote safe (a ++ b) = quote safe a ++ quote safe b.
Proof.
  induction a as [|c a IH]; simpl; [reflexivity|].
  rewrite IH. unfold quote_byte.
  destruct (is_safe safe c); [reflexivity|].
  unfold pct_encode. reflexivity.
Qed.

(** Text made of bytes that [quote] leaves alone is returned as it is. *)
Lemma quote_fixed (safe s : string) :
  all_chars (is_safe safe) s = true -> quote safe s = s.
Proof.
  induction s as [|c s IH]; simpl; [reflexivity|].
  intros H. apply andb_true_iff in H as [Hc Hs].
  unfold quote_byte. now rewrite Hc, (IH Hs).
Qed.

(** With [%] among the safe characters, the output of [quote] is made
    of bytes that [quote] leaves alone. *)
Lemma quote_output_safe (safe s : string) :
  mem_char "%" safe = true ->
  all_chars (is_safe safe) (quote safe s) = true.
Proof.
  intros Hpct. induction s as [|c s IH]; simpl; [reflexivity|].
  rewrite all_chars_app, IH, andb_true_r.
  unfold quote_byte. destruct (is_safe safe c) eqn:Hc.
  - simpl. now rewrite Hc.
  - pose proof (pct_encode_hex_always_safe c) as Hhex.
    unfold pct_encode in *.
    rewrite all_chars_cons. apply andb_true_iff. split.
    + unfold is_safe. rewrite Hpct. reflexivity.
    + eapply all_chars_impl; [|exact Hhex].
      intros d Hd. unfold is_safe. now rewrite Hd.
Qed.

(** The escape never re-escapes its own output. *)
Lemma quote_idempotent (safe s : string) :
  mem_char "%" safe = true ->
  quote safe (quote safe s) = quote safe s.
Proof. intros H. apply quote_fixed, quote_output_safe, H. Qed.

(** A character that is neither [%] nor a hexadecimal digit enters the
    output of [quote] only from the input. *)
Lemma quote_no_new_char (safe : string) (c : ascii) (s : string) :
  mem_char c pct_alphabet = false ->
  mem_char c s = false ->
  mem_char c (quote safe s) = false.
Proof.
  intros Hc. induction s as [|d s IH]; simpl; [reflexivity|].
  intros H. apply orb_false_iff in H as [Hd Hs].
  rewrite mem_char_app, (IH Hs), orb_false_r.
  unfold quote_byte. destruct (is_safe safe d).
  - simpl. now rewrite Hd.
  - eapply all_chars_not_mem; [exact Hc | apply pct_encode_alphabet].
Qed.

Lemma quote_falsy (safe s : string) : falsy (quote safe s) = falsy s.
Proof.
  destruct s as [|c s]; [reflexivity|]. simpl.
  unfold quote_byte. destruct (is_safe safe c); reflexivity.
Qed.

End QuoteFacts.

(** ** URLPath *)

Section URLPathFacts.
Import PyStr Parse Words.
Context `{Externals}.

Lemma unreserved_is_safe (safe : string) (c : ascii) :
  URL.in_set URL._UNRESERVED c = true -> is_safe safe c = true.
Proof.
  intros Hc. unfold is_safe.
  replace (mem_char c _ALWAYS_SAFE) with true; [reflexivity|].
  revert Hc. each_byte c; intros Hc; try reflexivity; discriminate Hc.
Qed.

Lemma unreserved_segment_fixed (safe seg : string) :
  unreserved_segment seg = true -> quote safe seg = seg.
Proof.
  intros Hseg. apply quote_fixed.
  eapply all_chars_impl; [|exact Hseg]. apply unreserved_is_safe.
Qed.

Lemma unreserved_segment_no_slash (seg : string) :
  unreserved_segment seg = true -> mem_char "/" seg = false.
Proof. apply all_chars_not_mem. reflexivity. Qed.

Lemma map_quote_unreserved (safe : string) (l : list string) :
  Forall (fun seg => unreserved_segment seg = true) l ->
  map (quote safe) l = l.
Proof.
  induction 1 as [|seg l Hseg _ IH]; simpl; [reflexivity|].
  now rewrite (unreserved_segment_fixed _ _ Hseg), IH.
Qed.

(** Whatever the key and whatever the string assigned, [__setitem__]
    reaches the unary plus: it raises, and by then the list is empty. *)
Lemma setitem_str_always_raises (_key : Z) (v : string) (self : URLPath.t) :
  URLPath.__setitem__ _key (URLPath.VStr v) self
  = (Raise (TypeError "bad operand type for unary +: 'URLPath'"), []).
Proof. reflexivity. Qed.

Lemma setitem_seq_always_raises (_key : Z) (l : list string) (self : URLPath.t) :
  URLPath.__setitem__ _key (URLPath.VSeq l) self
  = (Raise (TypeError "bad operand type for unary +: 'URLPath'"), []).
Proof. reflexivity. Qed.

(** C3: on the path [a/b/c], assigning ["x/y"] at index 1 raises
    [TypeError] and leaves the path empty, where the splice of the
    specification gives [a/x/y/c]. *)
Theorem setitem_splice_example_raises :
  URLPath.__setitem__ 1 (URLPath.VStr "x/y") ["a"; "b"; "c"]
  = (Raise (TypeError "bad operand type for unary +: 'URLPath'"), [])
  /\ URLPath.spec_splice ["a"; "b"; "c"] 1 (split "/" "x/y")
     = ["a"; "x"; "y"; "c"].
Proof. split; reflexivity. Qed.

(** C4: an index assignment on a path raises only after the path has
    been cleared: for every key, every string value and every path, the
    call raises and the path is left empty; the path [a/b/c] does not keep
    its prior value when ["x/y"] is assigned at index 1. *)
Theorem setitem_raise_leaves_path_cleared :
  (forall (_key : Z) (v : string) (self : URLPath.t),
   exists e,
     fst (URLPath.__setitem__ _key (URLPath.VStr v) self) = Raise e
     /\ snd (URLPath.__setitem__ _key (URLPath.VStr v) self) = [])
  /\ snd (URLPath.__setitem__ 1 (URLPath.VStr "x/y") ["a"; "b"; "c"])
     <> ["a"; "b"; "c"].
Proof.
  split.
  - intros _key v self. rewrite setitem_str_always_raises.
    eexists. split; reflexivity.
  - rewrite setitem_str_always_raises. discriminate.
Qed.

(** C8: a ["/"] inside a stored segment is left as it is by [__str__]:
    the path of the two segments [a/b] and [c] renders as [a/b/c], where
    escaping the separator would give [a%2Fb/c]. *)
Theorem path_str_keeps_slash_in_segment :
  URLPath.__str__ ["a/b"; "c"] = "a/b/c"
  /\ join "/" (map (quote "") ["a/b"; "c"]) = "a%2Fb/c".
Proof. split; reflexivity. Qed.

(** C9 (as amended): a path built from a non-empty sequence of segments
    of unreserved characters is given back by rendering it and building
    a path from the rendering. *)
Theorem path_roundtrip_unreserved :
  forall l : list string,
    l <> [] ->
    Forall (fun seg => unreserved_segment seg = true) l ->
    roundtrips l.
Proof.
  intros l Hne Hall. exists l. split; [reflexivity|].
  unfold URLPath.__str__, URLPath.__init__.
  rewrite (map_quote_unreserved _ _ Hall). apply (f_equal Ok).
  apply split_join; [exact Hne|].
  eapply Forall_impl; [|exact Hall].
  intros seg. apply unreserved_segment_no_slash.
Qed.

Lemma path_roundtrip_unreserved_witness :
  ["usr"; "local"; "lib-3.12"] <> []
  /\ Forall (fun seg => unreserved_segment seg = true) ["usr"; "local"; "lib-3.12"]
  /\ roundtrips ["usr"; "local"; "lib-3.12"].
Proof.
  assert (Hne : ["usr"; "local"; "lib-3.12"] <> []) by discriminate.
  assert (Hall : Forall (fun seg => unreserved_segment seg = true)
                        ["usr"; "local"; "lib-3.12"])
    by (repeat constructor).
  exact (conj Hne (conj Hall (path_roundtrip_unreserved _ Hne Hall))).
Defined.

(** C9 as stated fails: the empty sequence comes back as one empty
    segment, and a segment with a space comes back escaped. *)
Lemma path_roundtrip_fails :
  (forallb plain_segment [] = true /\ ~ roundtrips [])
  /\ (forallb plain_segment ["a b"] = true /\ ~ roundtrips ["a b"]).
Proof.
  split; (split; [reflexivity|]); intros [p [Hp Hback]];
    injection Hp as <-; discriminate Hback.
Qed.

End URLPathFacts.

(** ** URL: what the setters leave untouched *)

Section URLFrame.
Import PyStr Parse Words.
Context `{Externals}.

Lemma keeps_ret {A} (a : A) : keeps_path_query (ret a).
Proof. intros self. split; reflexivity. Qed.

Lemma keeps_raise {A} (e : exn) : keeps_path_query (@raise URL.t A e).
Proof. intros self. split; reflexivity. Qed.

Lemma keeps_lift {A} (r : result A) : keeps_path_query (lift r).
Proof. intros self. split; reflexivity. Qed.

Lemma keeps_bind {A B} (m : M URL.t A) (k : A -> M URL.t B) :
  keeps_path_query m -> (forall a, keeps_path_query (k a)) ->
  keeps_path_query (bind m k).
Proof.
  intros Hm Hk self. unfold bind.
  destruct (Hm self) as [Hp Hq].
  destruct (m self) as [[a|e] self']; simpl in *.
  - destruct (Hk a self') as [Hp' Hq']. split; congruence.
  - split; assumption.
Qed.

Lemma keeps_if {A} (b : bool) (m1 m2 : M URL.t A) :
  keeps_path_query m1 -> keeps_path_query m2 ->
  keeps_path_query (if b then m1 else m2).
Proof. destruct b; auto. Qed.

Lemma keeps_set_scheme v : keeps_path_query (URL.set_scheme v).
Proof. intros self. split; reflexivity. Qed.
Lemma keeps_set_userinfo v : keeps_path_query (URL.set_userinfo v).
Proof. intros self. split; reflexivity. Qed.
Lemma keeps_set_host v : keeps_path_query (URL.set_host v).
Proof. intros self. split; reflexivity. Qed.
Lemma keeps_set_port v : keeps_path_query (URL.set_port v).
Proof. intros self. split; reflexivity. Qed.

Ltac frame :=
  repeat first
    [ apply keeps_ret | apply keeps_raise | apply keeps_lift
    | apply keeps_set_scheme | apply keeps_set_userinfo
    | apply keeps_set_host | apply keeps_set_port
    | apply keeps_if | apply keeps_bind | intro ].

Lemma keeps_scheme_setter s : keeps_path_query (URL.scheme_setter s).
Proof. unfold URL.scheme_setter. frame. Qed.

Lemma keeps_userinfo_setter v : keeps_path_query (URL.userinfo_setter v).
Proof. unfold URL.userinfo_setter. destruct v; frame. Qed.

Lemma keeps_host_setter v : keeps_path_query (URL.host_setter v).
Proof. unfold URL.host_setter. destruct v; frame. Qed.

Lemma keeps_port_setter v : keeps_path_query (URL.port_setter v).
Proof. unfold URL.port_setter. destruct v; frame. Qed.

Lemma keeps_authority_setter v : keeps_path_query (URL.authority_setter v).
Proof.
  unfold URL.authority_setter. destruct v; frame; apply keeps_host_setter.
Qed.

Lemma keeps_init a : keeps_path_query (URL.__init__ a).
Proof.
  unfold URL.__init__.
  apply keeps_bind; [apply keeps_scheme_setter|]. intros _.
  repeat (apply keeps_if; [apply keeps_raise|]).
  apply keeps_bind; [|intros _; apply keeps_ret].
  apply keeps_if; [apply keeps_authority_setter|].
  apply keeps_bind; [apply keeps_userinfo_setter|]. intros _.
  apply keeps_bind; [apply keeps_host_setter|]. intros _.
  apply keeps_port_setter.
Qed.

End URLFrame.

(** ** URL: construction and rendering *)

Section URLFacts.
Import PyStr Parse Words.
Import URL.

(** C1: [__str__] returns the placeholder text whatever the object
    holds; for the URL built from scheme [http] and host [example.com]
    it returns ["<WIP>"], where the composition of the specification is
    [http://example.com]. *)
Theorem str_returns_placeholder `{Externals} :
  (forall self : URL.t, URL.__str__ self = "<WIP>")
  /\ exists self,
       URL.new (mk_args "http" PyNone PyNone (PyStr "example.com") PyNone
                        PathNone QueryNone PyNone) = Ok self
       /\ URL.__str__ self = "<WIP>"
       /\ URL.spec_toString self None = "http://example.com".
Proof.
  split; [reflexivity|].
  eexists. split; [reflexivity|]. split; reflexivity.
Qed.

(** C2: after every successful construction the object has no [path]
    and no [query] attribute, whatever was passed for them: [__init__]
    rebinds its local names and assigns neither attribute. *)
Theorem init_assigns_no_path_no_query `{Externals} :
  forall (a : args) (self : URL.t),
    URL.new a = Ok self ->
    URL.path self = None /\ URL.query self = None.
Proof.
  intros a self Hnew. unfold URL.new in Hnew.
  destruct (keeps_init a blank) as [Hp Hq].
  destruct (__init__ a blank) as [[u|e] self']; [|discriminate].
  injection Hnew as <-. split; assumption.
Qed.

Lemma init_assigns_no_path_no_query_witness :
  let a := mk_args "http" PyNone PyNone (PyStr "example.com") PyNone
                   (PathStr "a/b") (QueryStr "k=v") PyNone in
  let self := mk (Some "http") (Some PyNone) (Some "example.com")
                 (Some PyNone) None None in
  @URL.new ascii_text a = Ok self
  /\ URL.path self = None /\ URL.query self = None.
Proof.
  intros a self.
  assert (Hnew : @URL.new ascii_text a = Ok self) by reflexivity.
  exact (conj Hnew (@init_assigns_no_path_no_query ascii_text a self Hnew)).
Defined.

(** *** host *)

(** Text that passes the character check of the host setter holds no
    [:], so it never parses as an IPv6 literal: the bracketing branch
    is not reachable. *)
Lemma host_allowed_not_ipv6 `{Externals} (h : string) :
  all_chars (in_set host_allowed) h = true -> IPv6Address h = false.
Proof.
  intros Hh. unfold IPv6Address.
  rewrite split_no_sep; [reflexivity|].
  eapply all_chars_not_mem; [|exact Hh]. reflexivity.
Qed.

Lemma host_setter_stores_lowercase `{Externals} (v : pyval) (self self' : URL.t) :
  host_setter v self = (Ok tt, self') ->
  exists s h, v = PyStr s /\ idna s = Ok h /\ _host self' = Some (lower h).
Proof.
  unfold host_setter, bind, lift, raise.
  destruct (truthy v); cbv [negb]; [|discriminate].
  destruct v as [|s|z]; try discriminate.
  destruct (idna s) as [h|e] eqn:Hidna; [|discriminate].
  destruct (all_chars (in_set host_allowed) h) eqn:Hh; cbv [negb]; [|discriminate].
  rewrite (host_allowed_not_ipv6 _ Hh).
  intros Heq. injection Heq as <-. now exists s, h.
Qed.

(** C6: the host setter refuses the IPv6 loopback literal: [::1] fails
    the character check, since [:] is not among the characters a host
    may hold, before the IPv6 parse is tried; the empty host is refused
    as the claim says. *)
Theorem host_setter_rejects_ipv6_loopback `{Externals} :
  forall self : URL.t,
    host_setter (PyStr "::1") self
    = (Raise (ValueError "Host contains illegal characters."), self)
    /\ host_setter (PyStr "") self
       = (Raise (ValueError "Host cannot be empty."), self).
Proof. intros self. split; reflexivity. Qed.

(** *** port *)

Lemma isdigit_not_falsy `{Externals} (s : string) :
  s <> "" -> truthy (PyStr s) = true.
Proof. destruct s; [contradiction | reflexivity]. Qed.

(** C7 (as amended): a falsy port clears the attribute; a non-empty
    string that is not all digits is refused and one that is all digits
    is stored as given; a non-zero integer is stored as the integer it
    is. *)
Theorem port_setter_cases `{Externals} :
  forall self : URL.t,
    (forall v, truthy v = false ->
               port_setter v self = set_port PyNone self)
    /\ (forall s, s <> "" -> isdigit s = false ->
                  port_setter (PyStr s) self
                  = (Raise (ValueError "Port cannot be a non-numerical value."), self))
    /\ (forall s, s <> "" -> isdigit s = true ->
                  port_setter (PyStr s) self = set_port (PyStr s) self)
    /\ (forall z, z <> 0%Z ->
                  port_setter (PyInt z) self = set_port (PyInt z) self).
Proof.
  intros self. repeat split.
  - intros v Hv. unfold port_setter. now rewrite Hv.
  - intros s Hs Hd. unfold port_setter.
    now rewrite (isdigit_not_falsy s Hs), Hd.
  - intros s Hs Hd. unfold port_setter.
    now rewrite (isdigit_not_falsy s Hs), Hd.
  - intros z Hz. unfold port_setter. simpl.
    destruct (Z.eqb_spec z 0); [contradiction | reflexivity].
Qed.

Lemma port_setter_cases_witness :
  let self := mk (Some "http") (Some PyNone) (Some "example.com")
                 (Some (PyStr "80")) None None in
  @port_setter ascii_text (PyInt 0) self = set_port PyNone self
  /\ @port_setter ascii_text (PyStr "80a") self
     = (Raise (ValueError "Port cannot be a non-numerical value."), self)
  /\ @port_setter ascii_text (PyStr "8080") self = set_port (PyStr "8080") self
  /\ @port_setter ascii_text (PyInt 8080) self = set_port (PyInt 8080) self.
Proof.
  intros self.
  destruct (@port_setter_cases ascii_text self) as [Hfalsy [Hbad [Hgood Hint]]].
  split; [apply Hfalsy; reflexivity|].
  split; [apply Hbad; [discriminate | reflexivity]|].
  split; [apply Hgood; [discriminate | reflexivity]|].
  apply Hint. discriminate.
Defined.

(** C7 as stated fails: the integer 8080 is stored as an integer, not
    as the string of its decimal digits. *)
Lemma port_setter_keeps_integer :
  _port (snd (@port_setter ascii_text (PyInt 8080) blank)) = Some (PyInt 8080)
  /\ _port (snd (@port_setter ascii_text (PyInt 8080) blank))
     <> Some (PyStr (py_str (PyInt 8080))).
Proof. split; [reflexivity | discriminate]. Qed.

(** *** userinfo *)

Lemma userinfo_safe_is_allowed (c : ascii) :
  is_safe userinfo_safe c = true -> in_set userinfo_allowed c = true.
Proof. each_byte c; intros Hc; try reflexivity; discriminate Hc. Qed.

(** Every output of the escape passes the character check of the
    userinfo setter. *)
Lemma userinfo_quote_allowed (s : string) :
  all_chars (in_set userinfo_allowed) (quote userinfo_safe s) = true.
Proof.
  eapply all_chars_impl; [apply userinfo_safe_is_allowed|].
  apply quote_output_safe. reflexivity.
Qed.

(** C10: the userinfo setter accepts every string, and setting the
    userinfo again to the value it stored stores that value again: the
    second pass escapes nothing, [%] included. *)
Theorem userinfo_setter_idempotent :
  forall (s : string) (self : URL.t),
  exists (stored : pyval) (self1 : URL.t),
    userinfo_setter (PyStr s) self = (Ok tt, self1)
    /\ _userinfo self1 = Some stored
    /\ userinfo_setter stored self1 = (Ok tt, self1).
Proof.
  intros s self. unfold userinfo_setter at 1.
  destruct s as [|c s].
  - exists PyNone. eexists. simpl. repeat split.
  - change (truthy (PyStr (String c s))) with true. cbv beta iota.
    change (negb true) with false. cbv iota.
    rewrite userinfo_quote_allowed. cbv [negb].
    exists (PyStr (quote userinfo_safe (String c s))). eexists.
    split; [reflexivity|]. split; [reflexivity|].
    unfold userinfo_setter, truthy.
    rewrite quote_falsy. cbv [falsy negb].
    rewrite quote_idempotent by reflexivity.
    rewrite userinfo_quote_allowed. reflexivity.
Qed.

(** *** authority *)

Lemma bind_assoc {S A B C} (m : M S A) (f : A -> M S B) (g : B -> M S C) (s : S) :
  bind (bind m f) g s = bind m (fun a => bind (f a) g) s.
Proof. unfold bind. destruct (m s) as [[a|e] s']; reflexivity. Qed.

Lemma append_empty_r (s : string) : s ++ "" = s.
Proof. induction s as [|c s IH]; simpl; [reflexivity | now rewrite IH]. Qed.

Lemma clear_unsafe_bytes_empty : _clear_unsafe_bytes "" = "".
Proof. reflexivity. Qed.

Lemma last_app_one {A} (l : list A) (x d : A) : last (l ++ [x]) d = x.
Proof. apply last_last. Qed.

(** The host-and-port remainder written with escaped parts. *)
Lemma quote_host_port (host : string) (port : option string) :
  quote "@:" (host ++ match port with Some p => ":" ++ p | None => "" end)
  = escaped_remainder host port.
Proof. unfold escaped_remainder. rewrite quote_app. destruct port; reflexivity. Qed.

Lemma host_port_no_at (host : string) (port : option string) :
  mem_char "@" host = false ->
  (forall p, port = Some p -> mem_char "@" p = false) ->
  mem_char "@" (escaped_remainder host port) = false.
Proof.
  intros Hh Hp. unfold escaped_remainder. rewrite mem_char_app.
  rewrite (quote_no_new_char "@:" "@" host eq_refl Hh). simpl.
  destruct port as [p|]; [|reflexivity]. simpl.
  apply quote_no_new_char; [reflexivity | now apply Hp].
Qed.

(** What the setter does once the list of [@]-separated pieces and the
    remainder after the last [@] are known. *)
Lemma authority_setter_pieces `{Externals}
      (authority : string) (before : list string) (host : string)
      (port : option string) (self : URL.t) :
  _clear_unsafe_bytes authority <> "" ->
  mem_char "@" host = false -> mem_char ":" host = false ->
  (forall p, port = Some p -> mem_char "@" p = false) ->
  split "@" (quote "@:" (_clear_unsafe_bytes authority))
  = (before ++ [escaped_remainder host port])%list ->
  authority_setter (PyStr authority) self
  = (host_setter (PyStr (quote "@:" host)) ;;;
     when_some (fun p => set_port (PyStr (quote "@:" p))) port ;;;
     when_some (fun u => set_userinfo (PyStr u)) (hd_error before))%py self.
Proof.
  intros Hne Hat Hcolon Hport Hsplit.
  assert (Hauth : truthy (PyStr authority) = true).
  { destruct authority; [now rewrite clear_unsafe_bytes_empty in Hne | reflexivity]. }
  unfold authority_setter. rewrite Hauth. cbv [negb].
  destruct (falsy (_clear_unsafe_bytes authority)) eqn:Hf;
    [apply falsy_true in Hf; contradiction|].
  cbv zeta. rewrite Hsplit, last_app_one.
  assert (Hlen0 : (0 <? List.length (before ++ [escaped_remainder host port]))%nat = true).
  { rewrite length_app. simpl. apply Nat.ltb_lt. lia. }
  rewrite Hlen0.
  assert (Hlen1 : (1 <? List.length (before ++ [escaped_remainder host port]))%nat
                  = match before with [] => false | _ => true end).
  { rewrite length_app. destruct before; [reflexivity|].
    simpl. apply Nat.ltb_lt. lia. }
  rewrite Hlen1.
  assert (Hq : mem_char ":" (quote "@:" host) = false)
    by (apply quote_no_new_char; [reflexivity | exact Hcolon]).
  rewrite bind_assoc. unfold escaped_remainder.
  destruct port as [p|].
  - rewrite (split1_app_sep ":" _ _ Hq). simpl.
    destruct before as [|u before]; reflexivity.
  - rewrite append_empty_r, (split1_no_sep ":" _ Hq). simpl.
    destruct before as [|u before]; reflexivity.
Qed.

Lemma append_sep_assoc (a b : string) (sep : ascii) :
  (a ++ String sep "") ++ b = a ++ String sep b.
Proof. induction a as [|c a IH]; simpl; [reflexivity | now rewrite IH]. Qed.

(** The steps of the authority setter on well-formed input: once the
    unsafe bytes are removed, an authority of the shape
    [[user "@"] host [":" port]], where [host] holds neither [@] nor [:]
    and [port] holds no [@], runs the host setter on the escaped [host],
    then assigns the escaped [port] when there is one, then assigns a
    userinfo when there is a [user], and makes no other assignment.  The
    userinfo assigned is the escaped [user] whenever [user] holds no
    [@]. *)
Theorem authority_setter_decomposes `{Externals} :
  forall (user : option string) (host : string) (port : option string)
         (authority : string) (self : URL.t),
    _clear_unsafe_bytes authority = compose user host port ->
    compose user host port <> "" ->
    mem_char "@" host = false ->
    mem_char ":" host = false ->
    (forall p, port = Some p -> mem_char "@" p = false) ->
    exists stored_user : option string,
      authority_setter (PyStr authority) self
      = (host_setter (PyStr (quote "@:" host)) ;;;
         when_some (fun p => set_port (PyStr (quote "@:" p))) port ;;;
         when_some (fun u => set_userinfo (PyStr u)) stored_user)%py self
      /\ (user = None -> stored_user = None)
      /\ (forall u, user = Some u -> mem_char "@" u = false ->
                    stored_user = Some (quote "@:" u)).
Proof.
  intros user host port authority self Hclear Hne Hat Hcolon Hport.
  pose proof (host_port_no_at host port Hat Hport) as Hrem.
  destruct user as [u|].
  - exists (hd_error (split "@" (quote "@:" u))). split; [|split].
    + apply authority_setter_pieces; try assumption; [congruence|].
      rewrite Hclear. unfold compose.
      rewrite quote_app, quote_host_port, quote_app.
      change (quote "@:" "@") with "@".
      rewrite append_sep_assoc, split_app_sep, (split_no_sep _ _ Hrem).
      reflexivity.
    + discriminate.
    + intros u' Hu Hnoat. injection Hu as <-.
      rewrite split_no_sep; [reflexivity|].
      apply quote_no_new_char; [reflexivity | exact Hnoat].
  - exists None. split; [|split].
    + apply (authority_setter_pieces authority [] host port self);
        try assumption; [congruence|].
      rewrite Hclear. unfold compose. simpl append at 1.
      rewrite quote_host_port. simpl. apply split_no_sep, Hrem.
    + reflexivity.
    + discriminate.
Qed.

Lemma authority_setter_decomposes_witness :
  @authority_setter ascii_text (PyStr "user:pw@example.com:8080") blank
  = (Ok tt, mk None (Some (PyStr "user:pw")) (Some "example.com")
               (Some (PyStr "8080")) None None)
  /\ @authority_setter ascii_text (PyStr "example.com") blank
     = (Ok tt, mk None None (Some "example.com") None None None).
Proof.
  split.
  - destruct (@authority_setter_decomposes ascii_text
                (Some "user:pw") "example.com" (Some "8080")
                "user:pw@example.com:8080" blank)
      as [stored [Hrun [_ Huser]]];
      [reflexivity | discriminate | reflexivity | reflexivity
      | intros p Hp; injection Hp as <-; reflexivity |].
    rewrite Hrun, (Huser "user:pw" eq_refl eq_refl). reflexivity.
  - destruct (@authority_setter_decomposes ascii_text
                None "example.com" None "example.com" blank)
      as [stored [Hrun [Hnone _]]];
      [reflexivity | discriminate | reflexivity | reflexivity
      | discriminate |].
    rewrite Hrun, (Hnone eq_refl). reflexivity.
Defined.

(** C5: the authority setter does not decompose as the claim says.
    With two [@], ["a@b@c"] stores the userinfo [a], the text before the
    first [@], and [b] is lost, although the host is taken after the last
    [@]; the claim gives [a@b].  On a URL built with userinfo [bob] and
    port [8080], setting the authority to ["example.com"] keeps both, and
    the authority reads back [bob@example.com:8080]; the claim gives no
    userinfo and no port.  On a URL built from the authority
    ["example.com"] the userinfo and port attributes do not exist, and
    reading the authority raises [AttributeError]. *)
Theorem authority_setter_drops_and_keeps `{Externals} :
  let args := mk_args "http" PyNone (PyStr "bob") (PyStr "old.org")
                      (PyStr "8080") PathNone QueryNone PyNone in
  let self := mk (Some "http") (Some (PyStr "bob")) (Some "old.org")
                 (Some (PyStr "8080")) None None in
  let stale := mk (Some "http") (Some (PyStr "bob")) (Some "example.com")
                  (Some (PyStr "8080")) None None in
  let bare := mk (Some "http") None (Some "example.com") None None None in
  (authority_setter (PyStr "a@b@c") blank
   = (Ok tt, mk None (Some (PyStr "a")) (Some "c") None None None)
   /\ PyStr "a" <> PyStr "a@b")
  /\ (URL.new args = Ok self
      /\ authority_setter (PyStr "example.com") self = (Ok tt, stale)
      /\ authority_getter stale = (Ok "bob@example.com:8080", stale))
  /\ (URL.new (mk_args "http" (PyStr "example.com") PyNone PyNone PyNone
                       PathNone QueryNone PyNone) = Ok bare
      /\ authority_getter bare = (Raise (AttributeError "_userinfo"), bare)).
Proof.
  cbv zeta. split; [split; [reflexivity | discriminate]|].
  split; repeat split.
Qed.

(** *** The setters of URL raise before they assign *)

Ltac raise_or_assign :=
  intros self e;
  unfold bind, lift, raise, ret, set_scheme, set_userinfo, set_host, set_port;
  repeat match goal with
         | |- context [if ?b then _ else _] => destruct b
         | |- context [match ?r with Ok _ => _ | Raise _ => _ end] => destruct r
         end;
  simpl; intros Hraise; first [reflexivity | discriminate Hraise].

Lemma scheme_setter_keeps_on_raise (s : string) :
  keeps_self_on_raise (scheme_setter s).
Proof. unfold scheme_setter. raise_or_assign. Qed.

Lemma userinfo_setter_keeps_on_raise (v : pyval) :
  keeps_self_on_raise (userinfo_setter v).
Proof. unfold userinfo_setter. destruct v; raise_or_assign. Qed.

Lemma host_setter_keeps_on_raise `{Externals} (v : pyval) :
  keeps_self_on_raise (host_setter v).
Proof. unfold host_setter. destruct v; raise_or_assign. Qed.

Lemma port_setter_keeps_on_raise `{Externals} (v : pyval) :
  keeps_self_on_raise (port_setter v).
Proof. unfold port_setter. destruct v; raise_or_assign. Qed.

Lemma authority_setter_keeps_on_raise `{Externals} (v : pyval) :
  keeps_self_on_raise (authority_setter v).
Proof.
  intros self e. unfold authority_setter.
  destruct (truthy v); cbv [negb]; [|intros _; reflexivity].
  destruct v as [|s|z]; try (intros _; reflexivity).
  destruct (falsy (_clear_unsafe_bytes s)); [intros _; reflexivity|].
  cbv zeta. unfold bind.
  repeat match goal with
         | |- context [if ?b then _ else _] => destruct b
         end;
    try (intros Hraise; discriminate Hraise);
    pose proof (host_setter_keeps_on_raise
                  (PyStr (nth 0 (split1 ":" (last (split "@"
                     (quote "@:" (_clear_unsafe_bytes s))) "")) "")) self) as Hhost;
    destruct (host_setter _ self) as [[u|e'] self'];
    simpl in *; intros Hraise;
    first [discriminate Hraise | exact (Hhost e' eq_refl)].
Qed.

End URLFacts.

(** * Further properties of the module *)

(** ** _clear_unsafe_bytes *)

Section ClearFacts.
Import PyStr Parse Shapes.
Import URL.

Lemma remove_char_gone (c : ascii) (s : string) :
  mem_char c (remove_char c s) = false.
Proof.
  induction s as [|d s IH]; simpl; [reflexivity|].
  destruct (Ascii.eqb_spec d c) as [->|Hdc]; [exact IH|].
  simpl. rewrite IH, orb_false_r.
  destruct (Ascii.eqb_spec c d); [congruence | reflexivity].
Qed.

Lemma remove_char_other (c d : ascii) (s : string) :
  d <> c -> mem_char d (remove_char c s) = mem_char d s.
Proof.
  intros Hdc. induction s as [|x s IH]; simpl; [reflexivity|].
  destruct (Ascii.eqb_spec x c) as [->|Hxc].
  - rewrite IH. destruct (Ascii.eqb_spec d c); [contradiction | reflexivity].
  - simpl. now rewrite IH.
Qed.

Lemma remove_char_absent (c d : ascii) (s : string) :
  mem_char d s = false -> mem_char d (remove_char c s) = false.
Proof.
  intros Hd. destruct (Ascii.eqb_spec d c) as [->|Hdc].
  - apply remove_char_gone.
  - now rewrite remove_char_other.
Qed.

Lemma remove_char_fixed (c : ascii) (s : string) :
  mem_char c s = false -> remove_char c s = s.
Proof.
  induction s as [|d s IH]; simpl; [reflexivity|].
  intros H. apply orb_false_iff in H as [Hcd Hs].
  rewrite Ascii.eqb_sym, Hcd, (IH Hs). reflexivity.
Qed.

Lemma unsafe_byte_cases (c : ascii) :
  unsafe_byte c = true ->
  c = ascii_of_N 9 \/ c = ascii_of_N 13 \/ c = ascii_of_N 10.
Proof.
  unfold unsafe_byte, _UNSAFE_URL_BYTES_TO_REMOVE. cbn [existsb].
  destruct (Ascii.eqb_spec c (ascii_of_N 9)); [now left|].
  destruct (Ascii.eqb_spec c (ascii_of_N 13)); [now right; left|].
  destruct (Ascii.eqb_spec c (ascii_of_N 10)); [now right; right|].
  simpl. discriminate.
Qed.

Lemma clear_unsafe_bytes_unfold (s : string) :
  _clear_unsafe_bytes s
  = remove_char (ascii_of_N 10)
      (remove_char (ascii_of_N 13) (remove_char (ascii_of_N 9) s)).
Proof. reflexivity. Qed.

Lemma clear_unsafe_bytes_absent (d : ascii) (s : string) :
  mem_char d s = false -> mem_char d (_clear_unsafe_bytes s) = false.
Proof.
  intros Hd. rewrite clear_unsafe_bytes_unfold.
  now repeat apply remove_char_absent.
Qed.

(** Text holding none of the three bytes is returned as it is. *)
Lemma clear_unsafe_bytes_fixed (s : string) :
  (forall c, unsafe_byte c = true -> mem_char c s = false) ->
  _clear_unsafe_bytes s = s.
Proof.
  intros Hs. rewrite clear_unsafe_bytes_unfold.
  rewrite (remove_char_fixed (ascii_of_N 9) s) by (apply Hs; reflexivity).
  rewrite (remove_char_fixed (ascii_of_N 13) s) by (apply Hs; reflexivity).
  apply remove_char_fixed, Hs. reflexivity.
Qed.

Lemma clear_unsafe_bytes_gone (c : ascii) (s : string) :
  unsafe_byte c = true -> mem_char c (_clear_unsafe_bytes s) = false.
Proof.
  intros Hc. rewrite clear_unsafe_bytes_unfold.
  destruct (unsafe_byte_cases c Hc) as [-> | [-> | ->]].
  - do 2 apply remove_char_absent. apply remove_char_gone.
  - apply remove_char_absent, remove_char_gone.
  - apply remove_char_gone.
Qed.

Lemma clear_unsafe_bytes_mem (c : ascii) (s : string) :
  mem_char c (_clear_unsafe_bytes s) = negb (unsafe_byte c) && mem_char c s.
Proof.
  destruct (unsafe_byte c) eqn:Hc; simpl.
  - now apply clear_unsafe_bytes_gone.
  - rewrite clear_unsafe_bytes_unfold.
    assert (Hne : forall n, unsafe_byte (ascii_of_N n) = true -> c <> ascii_of_N n)
      by (intros n Hn ->; congruence).
    rewrite !remove_char_other by (apply Hne; reflexivity). reflexivity.
Qed.

(** The three passes treat a leading byte as one pass would: dropped
    when it is one of the three, kept in front otherwise. *)
Lemma clear_unsafe_bytes_cons (c : ascii) (s : string) :
  _clear_unsafe_bytes (String c s)
  = if unsafe_byte c then _clear_unsafe_bytes s
    else String c (_clear_unsafe_bytes s).
Proof.
  rewrite !clear_unsafe_bytes_unfold.
  unfold unsafe_byte, _UNSAFE_URL_BYTES_TO_REMOVE. cbn [existsb remove_char].
  destruct (Ascii.eqb c (ascii_of_N 9)); [reflexivity|].
  cbn [remove_char orb].
  destruct (Ascii.eqb c (ascii_of_N 13)); [reflexivity|].
  cbn [remove_char orb].
  destruct (Ascii.eqb c (ascii_of_N 10)); reflexivity.
Qed.

(** X1: the characters of [_clear_unsafe_bytes s] are the characters
    of [s] that are not a tab, a carriage return or a line feed, in the
    same order and as many times; and applying it twice is applying it
    once. *)
Theorem clear_unsafe_bytes_removes_exactly :
  forall s : string,
    list_ascii_of_string (_clear_unsafe_bytes s)
    = filter (fun c => negb (unsafe_byte c)) (list_ascii_of_string s)
    /\ _clear_unsafe_bytes (_clear_unsafe_bytes s) = _clear_unsafe_bytes s.
Proof.
  intros s. split.
  - induction s as [|c s IH]; [reflexivity|].
    rewrite clear_unsafe_bytes_cons. cbn [list_ascii_of_string filter].
    destruct (unsafe_byte c); cbn [negb list_ascii_of_string];
      now rewrite IH.
  - apply clear_unsafe_bytes_fixed. intros c Hc.
    now apply clear_unsafe_bytes_gone.
Qed.

(** Text whose every byte is one of the three is cleared to nothing. *)
Lemma clear_unsafe_bytes_all (s : string) :
  all_chars unsafe_byte s = true -> _clear_unsafe_bytes s = "".
Proof.
  intros Hs. destruct (_clear_unsafe_bytes s) as [|c rest] eqn:Hclear; [reflexivity|].
  exfalso.
  assert (Hin : mem_char c (_clear_unsafe_bytes s) = true)
    by (rewrite Hclear; simpl; now rewrite Ascii.eqb_refl).
  rewrite clear_unsafe_bytes_mem in Hin. apply andb_true_iff in Hin as [Hsafe Hc].
  clear Hclear. induction s as [|d s IH]; [discriminate|].
  simpl in Hs, Hc. apply andb_true_iff in Hs as [Hd Hs].
  destruct (Ascii.eqb_spec c d) as [->|]; [now rewrite Hd in Hsafe|].
  now apply IH.
Qed.

End ClearFacts.

(** ** URLPath: parsing and rendering *)

Section PathFacts.
Import PyStr Parse Shapes.

Lemma split_pieces_no_sep (sep : ascii) (s : string) :
  Forall (fun x => mem_char sep x = false) (split sep s).
Proof.
  induction s as [|c s IH]; simpl; [repeat constructor|].
  destruct (Ascii.eqb_spec c sep) as [->|Hc].
  - constructor; [reflexivity | exact IH].
  - destruct (split sep s) as [|x xs]; [repeat constructor; simpl|].
    + destruct (Ascii.eqb_spec sep c); [congruence | reflexivity].
    + inversion IH as [|? ? Hx Hxs]; subst. constructor; [|exact Hxs].
      simpl. rewrite Hx, orb_false_r.
      destruct (Ascii.eqb_spec sep c); [congruence | reflexivity].
Qed.

Lemma join_cons_cons (sep x y : string) (l : list string) :
  join sep (x :: y :: l) = x ++ sep ++ join sep (y :: l).
Proof. reflexivity. Qed.

Lemma append_assoc (a b c : string) : (a ++ b) ++ c = a ++ b ++ c.
Proof. induction a as [|x a IH]; simpl; [reflexivity | now rewrite IH]. Qed.

Lemma join_head_app (sep a x : string) (l : list string) :
  join sep ((a ++ x) :: l) = a ++ join sep (x :: l).
Proof.
  destruct l as [|y l]; [reflexivity|].
  rewrite !join_cons_cons. apply append_assoc.
Qed.

(** Splitting loses nothing: joining the pieces gives the text back. *)
Lemma join_split (sep : ascii) (s : string) :
  join (String sep "") (split sep s) = s.
Proof.
  induction s as [|c s IH]; simpl; [reflexivity|].
  destruct (Ascii.eqb_spec c sep) as [->|Hc].
  - pose proof (split_not_nil sep s) as Hne.
    destruct (split sep s) as [|x xs]; [contradiction|].
    rewrite join_cons_cons, IH. reflexivity.
  - pose proof (split_not_nil sep s) as Hne.
    destruct (split sep s) as [|x xs]; [contradiction|].
    change (String c x) with (String c "" ++ x).
    rewrite join_head_app, IH. reflexivity.
Qed.

(** Escaping piece by piece and joining is escaping the whole text, for
    a separator that is itself safe. *)
Lemma join_map_quote_split (safe : string) (sep : ascii) (s : string) :
  is_safe safe sep = true ->
  join (String sep "") (map (quote safe) (split sep s)) = quote safe s.
Proof.
  intros Hsep. induction s as [|c s IH]; simpl; [reflexivity|].
  pose proof (split_not_nil sep s) as Hne.
  destruct (Ascii.eqb_spec c sep) as [->|Hc].
  - destruct (split sep s) as [|x xs]; [contradiction|].
    cbn [map] in *. rewrite join_cons_cons, IH.
    unfold quote_byte. rewrite Hsep. reflexivity.
  - destruct (split sep s) as [|x xs]; [contradiction|].
    cbn [map] in *. cbn [quote]. rewrite join_head_app, IH. reflexivity.
Qed.

Lemma quote_length (safe s : string) :
  String.length (quote safe s)
  = (String.length s + 2 * escaped_count safe s)%nat.
Proof.
  induction s as [|c s IH]; simpl; [reflexivity|].
  unfold quote_byte. destruct (is_safe safe c); simpl; rewrite IH; lia.
Qed.

Lemma escaped_count_zero (safe s : string) :
  escaped_count safe s = 0%nat <-> all_chars (is_safe safe) s = true.
Proof.
  induction s as [|c s IH]; simpl; [tauto|].
  destruct (is_safe safe c); simpl; [exact IH|].
  split; [lia | discriminate].
Qed.

(** [quote] returns its argument exactly when it has nothing to escape. *)
Lemma quote_fixed_iff (safe s : string) :
  quote safe s = s <-> all_chars (is_safe safe) s = true.
Proof.
  split; [|apply quote_fixed].
  intros Heq. apply escaped_count_zero.
  pose proof (quote_length safe s) as Hlen. rewrite Heq in Hlen. lia.
Qed.

Lemma all_chars_ext (p q : ascii -> bool) (s : string) :
  (forall c, p c = q c) -> all_chars p s = all_chars q s.
Proof.
  intros Hpq. induction s as [|c s IH]; [reflexivity|].
  rewrite !all_chars_cons, Hpq, IH. reflexivity.
Qed.

(** X2: a path built from a string always has at least one segment, no
    segment holds a ["/"], and joining the segments with ["/"] gives the
    string back: the string constructor loses nothing. *)
Theorem path_from_string_lossless :
  forall s : string,
  exists p,
    URLPath.__init__ (URLPath.FromStr s) = Ok p
    /\ p <> []
    /\ Forall (fun seg => mem_char "/" seg = false) p
    /\ join "/" p = s.
Proof.
  intros s. exists (split "/" s). split; [reflexivity|].
  split; [apply split_not_nil|].
  split; [apply split_pieces_no_sep | apply join_split].
Qed.

(** X3: rendering a path built from a string escapes the string as a
    whole with ["/"] kept, so the string itself comes back exactly when it
    is made of unreserved characters and ["/"]; any other byte, [%]
    included, comes back escaped. *)
Theorem path_render_of_parsed_string :
  forall s : string,
  exists p,
    URLPath.__init__ (URLPath.FromStr s) = Ok p
    /\ URLPath.__str__ p = quote quote_default_safe s
    /\ (URLPath.__str__ p = s
        <-> all_chars (URL.in_set (URL._UNRESERVED ++ "/")) s = true).
Proof.
  intros s. exists (split "/" s). split; [reflexivity|].
  assert (Hrender : URLPath.__str__ (split "/" s) = quote quote_default_safe s)
    by (apply join_map_quote_split; reflexivity).
  split; [exact Hrender|].
  rewrite Hrender, quote_fixed_iff.
  assert (Hsame : forall c, is_safe quote_default_safe c
                            = URL.in_set (URL._UNRESERVED ++ "/") c)
    by (intros c; each_byte c; reflexivity).
  rewrite (all_chars_ext _ _ s Hsame). tauto.
Qed.

Lemma all_chars_join (p : ascii -> bool) (sep : string) (l : list string) :
  all_chars p sep = true ->
  Forall (fun x => all_chars p x = true) l ->
  all_chars p (join sep l) = true.
Proof.
  intros Hsep. induction 1 as [|x l Hx Hl IH]; [reflexivity|].
  destruct l as [|y l]; [exact Hx|].
  rewrite join_cons_cons, !all_chars_app, Hx, Hsep, IH. reflexivity.
Qed.

(** Every byte [quote] writes is one it leaves alone or one of the
    escape alphabet. *)
Lemma quote_output_chars (safe s : string) :
  all_chars (fun c => is_safe safe c || mem_char c pct_alphabet)
            (quote safe s) = true.
Proof.
  induction s as [|c s IH]; [reflexivity|]. cbn [quote].
  rewrite all_chars_app, IH, andb_true_r.
  unfold quote_byte. destruct (is_safe safe c) eqn:Hc.
  - rewrite all_chars_cons, Hc. reflexivity.
  - eapply all_chars_impl; [|apply pct_encode_alphabet].
    intros d Hd. cbv beta. rewrite Hd. apply orb_true_r.
Qed.

(** X4: a rendered path is written with unreserved characters, ["/"]
    and [%] only; no ["?"], ["#"] or space can appear in it, whatever the
    segments hold. *)
Theorem path_render_chars :
  forall p : URLPath.t,
    all_chars (URL.in_set rendered_path_chars) (URLPath.__str__ p) = true.
Proof.
  intros p. unfold URLPath.__str__. apply all_chars_join; [reflexivity|].
  induction p as [|seg p IH]; constructor; [|exact IH].
  eapply all_chars_impl; [|apply quote_output_chars].
  intros c. each_byte c; intros Hc; try reflexivity; discriminate Hc.
Qed.

(** X5: an index assignment never returns: whatever the key, the value
    and the path, it raises.  The path is left empty, except when the
    value is a byte string that does not decode, which raises before the
    path is touched. *)
Theorem setitem_never_returns `{Externals} :
  forall (_key : Z) (_value : URLPath.value) (self : URLPath.t),
  exists e,
    fst (URLPath.__setitem__ _key _value self) = Raise e
    /\ snd (URLPath.__setitem__ _key _value self)
       = match _value with
         | URLPath.VBytes b =>
             match bytes_decode b with
             | Ok _ => []
             | Raise _ => self
             end
         | _ => []
         end.
Proof.
  intros _key _value self. destruct _value as [s|b|l].
  - eexists. split; reflexivity.
  - unfold URLPath.__setitem__, bind, lift.
    destruct (bytes_decode b) as [s|e]; eexists; split; reflexivity.
  - eexists. split; reflexivity.
Qed.

End PathFacts.

(** ** URL: the stored forms of scheme, userinfo, host and port *)

Section StoredForms.
Import PyStr Parse Shapes.
Import URL.

Lemma lower_char_idempotent (c : ascii) : lower_char (lower_char c) = lower_char c.
Proof. each_byte c; reflexivity. Qed.

Lemma lower_idempotent (s : string) : lower (lower s) = lower s.
Proof.
  induction s as [|c s IH]; simpl; [reflexivity|].
  now rewrite lower_char_idempotent, IH.
Qed.

Lemma all_chars_lower (p q : ascii -> bool) (s : string) :
  (forall c, p c = true -> q (lower_char c) = true) ->
  all_chars p s = true -> all_chars q (lower s) = true.
Proof.
  intros Hpq. induction s as [|c s IH]; [reflexivity|].
  cbn [lower]. rewrite !all_chars_cons. intros H.
  apply andb_true_iff in H as [Hc Hs]. now rewrite (Hpq _ Hc), (IH Hs).
Qed.

Lemma lower_falsy (s : string) : falsy (lower s) = falsy s.
Proof. destruct s; reflexivity. Qed.

Lemma set_scheme_twice (v : string) (self : URL.t) :
  set_scheme v (snd (set_scheme v self)) = set_scheme v self.
Proof. reflexivity. Qed.

(** X6: a scheme the setter accepts is stored in lower case, written
    with lower-case letters, digits and [+-.] only, and the stored scheme
    is itself accepted and stored unchanged. *)
Theorem scheme_setter_stores_canonical :
  forall (s : string) (self self' : URL.t),
    scheme_setter s self = (Ok tt, self') ->
    _scheme self' = Some (lower s)
    /\ all_chars (in_set stored_scheme_chars) (lower s) = true
    /\ scheme_setter (lower s) self' = (Ok tt, self').
Proof.
  intros s self self'. unfold scheme_setter at 1.
  destruct (falsy s) eqn:Hfalsy; [discriminate|].
  destruct (all_chars (in_set scheme_chars) s) eqn:Hchars; [|discriminate].
  cbv [negb].
  destruct s as [|c s]; [discriminate|].
  destruct (mem_char c ascii_letters) eqn:Hfirst; [|discriminate].
  intros Hset. injection Hset as <-.
  assert (Hstored : all_chars (in_set stored_scheme_chars) (lower (String c s)) = true).
  { eapply all_chars_lower; [|exact Hchars].
    intros d. each_byte d; intros Hd; try reflexivity; discriminate Hd. }
  split; [reflexivity|]. split; [exact Hstored|].
  unfold scheme_setter. rewrite lower_falsy, Hfalsy.
  assert (Hagain : all_chars (in_set scheme_chars) (lower (String c s)) = true).
  { eapply all_chars_impl; [|exact Hstored].
    intros d. each_byte d; intros Hd; try reflexivity; discriminate Hd. }
  rewrite Hagain. cbv [negb]. cbn [lower].
  assert (Hletter : mem_char (lower_char c) ascii_letters = true).
  { revert Hfirst. each_byte c; intros Hc; try reflexivity; discriminate Hc. }
  rewrite Hletter. cbv [negb].
  rewrite lower_char_idempotent, lower_idempotent. reflexivity.
Qed.

Lemma scheme_setter_stores_canonical_witness :
  let self := mk (Some "http") (Some PyNone) (Some "example.com")
                 (Some PyNone) None None in
  let self' := mk (Some "git+ssh") (Some PyNone) (Some "example.com")
                  (Some PyNone) None None in
  scheme_setter "Git+SSH" self = (Ok tt, self')
  /\ _scheme self' = Some "git+ssh"
  /\ scheme_setter "git+ssh" self' = (Ok tt, self').
Proof.
  intros self self'.
  assert (Hset : scheme_setter "Git+SSH" self = (Ok tt, self')) by reflexivity.
  destruct (scheme_setter_stores_canonical _ _ _ Hset) as [Hstored [_ Hagain]].
  exact (conj Hset (conj Hstored Hagain)).
Defined.

(** X7: a non-empty userinfo is always accepted: the character check
    after the escape never fails.  What is stored is not empty, is written
    with the allowed characters only, and holds none of ["/?#[]@"]. *)
Theorem userinfo_setter_stored_chars :
  forall (s : string) (self : URL.t),
    s <> "" ->
    exists u,
      userinfo_setter (PyStr s) self = set_userinfo (PyStr u) self
      /\ u <> ""
      /\ all_chars (in_set userinfo_allowed) u = true
      /\ all_chars (fun c => negb (mem_char c userinfo_excluded)) u = true.
Proof.
  intros s self Hs. exists (quote userinfo_safe s).
  destruct s as [|c s]; [contradiction|].
  split; [|split; [|split]].
  - unfold userinfo_setter. change (truthy (PyStr (String c s))) with true.
    cbv [negb]. rewrite userinfo_quote_allowed. reflexivity.
  - intros Hq. pose proof (quote_falsy userinfo_safe (String c s)) as Hf.
    rewrite Hq in Hf. discriminate Hf.
  - apply userinfo_quote_allowed.
  - eapply all_chars_impl; [|apply userinfo_quote_allowed].
    intros d. each_byte d; intros Hd; try reflexivity; discriminate Hd.
Qed.

Lemma userinfo_setter_stored_chars_witness :
  "us er@x/y" <> ""
  /\ exists u,
       userinfo_setter (PyStr "us er@x/y") blank = set_userinfo (PyStr u) blank
       /\ u <> ""
       /\ all_chars (in_set userinfo_allowed) u = true
       /\ all_chars (fun c => negb (mem_char c userinfo_excluded)) u = true.
Proof.
  assert (Hne : "us er@x/y" <> "") by discriminate.
  exact (conj Hne (userinfo_setter_stored_chars "us er@x/y" blank Hne)).
Defined.

(** X8: whenever the host setter succeeds, the stored host is the
    lower-cased IDNA form of the text given, written with sub-delims,
    [%], lower-case letters, digits and [-_.~] only: it is never
    bracketed and never holds a [:]. *)
Theorem host_setter_stored_shape `{Externals} :
  forall (v : pyval) (self self' : URL.t),
    host_setter v self = (Ok tt, self') ->
    exists s h,
      v = PyStr s /\ idna s = Ok h
      /\ _host self' = Some (lower h)
      /\ all_chars (in_set stored_host_chars) (lower h) = true
      /\ mem_char "[" (lower h) = false
      /\ mem_char ":" (lower h) = false.
Proof.
  intros v self self' Hset.
  destruct (host_setter_stores_lowercase _ _ _ Hset) as [s [h [-> [Hidna Hhost]]]].
  exists s, h. split; [reflexivity|]. split; [exact Hidna|]. split; [exact Hhost|].
  assert (Hallowed : all_chars (in_set host_allowed) h = true).
  { revert Hset. unfold host_setter, bind, lift, raise.
    destruct (truthy (PyStr s)); cbv [negb]; [|discriminate].
    rewrite Hidna.
    destruct (all_chars (in_set host_allowed) h); [reflexivity | discriminate]. }
  assert (Hstored : all_chars (in_set stored_host_chars) (lower h) = true).
  { eapply all_chars_lower; [|exact Hallowed].
    intros c. each_byte c; intros Hc; try reflexivity; discriminate Hc. }
  split; [exact Hstored|].
  split; (eapply all_chars_not_mem; [|exact Hstored]); reflexivity.
Qed.

Lemma host_setter_stored_shape_witness :
  let self' := mk None None (Some "example.com") None None None in
  @host_setter ascii_text (PyStr "Example.COM") blank = (Ok tt, self')
  /\ exists s h,
       PyStr "Example.COM" = PyStr s /\ @idna ascii_text s = Ok h
       /\ _host self' = Some (lower h)
       /\ all_chars (in_set stored_host_chars) (lower h) = true
       /\ mem_char "[" (lower h) = false
       /\ mem_char ":" (lower h) = false.
Proof.
  intros self'.
  assert (Hset : @host_setter ascii_text (PyStr "Example.COM") blank = (Ok tt, self'))
    by reflexivity.
  exact (conj Hset (@host_setter_stored_shape ascii_text _ _ _ Hset)).
Defined.

Lemma lower_char_dot (c : ascii) :
  Ascii.eqb (lower_char c) "." = Ascii.eqb c ".".
Proof. each_byte c; reflexivity. Qed.

Lemma lower_length (s : string) : String.length (lower s) = String.length s.
Proof. induction s as [|c s IH]; simpl; [reflexivity | now rewrite IH]. Qed.

Lemma split_dot_lower (s : string) :
  split "." (lower s) = map lower (split "." s).
Proof.
  induction s as [|c s IH]; [reflexivity|].
  cbn [lower split]. rewrite lower_char_dot, IH.
  destruct (Ascii.eqb c "."); [reflexivity|].
  destruct (split "." s); reflexivity.
Qed.

Lemma removelast_map {A B} (f : A -> B) (l : list A) :
  removelast (map f l) = map f (removelast l).
Proof.
  induction l as [|x l IH]; [reflexivity|].
  destruct l as [|y l]; [reflexivity|].
  cbn [map removelast] in *. now rewrite IH.
Qed.

Lemma last_map_lower (l : list string) :
  last (map lower l) "" = lower (last l "").
Proof.
  induction l as [|x l IH]; [reflexivity|].
  destruct l as [|y l]; [reflexivity|].
  cbn [map last] in *. exact IH.
Qed.

Lemma forallb_over_map {A B} (p : B -> bool) (q : A -> bool) (f : A -> B)
      (l : list A) :
  (forall x, p (f x) = q x) ->
  forallb p (map f l) = forallb q l.
Proof.
  intros Hpq. induction l as [|x l IH]; simpl; [reflexivity|].
  now rewrite Hpq, IH.
Qed.

(** On ASCII text the IDNA codec accepts the lower-cased text whenever
    it accepts the text. *)
Lemma idna_lower `{Externals} (s : string) :
  all_chars is_ascii s = true -> idna s = Ok s -> idna (lower s) = Ok (lower s).
Proof.
  intros Hascii. unfold idna. rewrite Hascii.
  assert (Hlow : all_chars is_ascii (lower s) = true).
  { eapply all_chars_lower; [|exact Hascii].
    intros c. each_byte c; intros Hc; try reflexivity; discriminate Hc. }
  rewrite Hlow. cbv zeta.
  rewrite split_dot_lower, removelast_map, last_map_lower, lower_length.
  rewrite (forallb_over_map _ (fun label => ((0 <? String.length label)%nat
                                             && (String.length label <? 64)%nat)))
    by (intros label; now rewrite lower_length).
  destruct (forallb _ (removelast (split "." s))); cbv [negb]; [|discriminate].
  destruct (64 <=? String.length (last (split "." s) ""))%nat; [discriminate|].
  reflexivity.
Qed.

(** X9: on ASCII text, setting the host again to the value the setter
    stored succeeds and leaves the object as it is. *)
Theorem host_setter_idempotent_ascii `{Externals} :
  forall (s : string) (self self' : URL.t),
    all_chars is_ascii s = true ->
    host_setter (PyStr s) self = (Ok tt, self') ->
    exists h,
      _host self' = Some h
      /\ host_setter (PyStr h) self' = (Ok tt, self').
Proof.
  intros s self self' Hascii Hset. exists (lower s).
  revert Hset. unfold host_setter at 1. unfold bind, lift, raise.
  destruct s as [|c s]; [discriminate|].
  change (truthy (PyStr (String c s))) with true. cbv [negb].
  destruct (idna (String c s)) as [h|e] eqn:Hidna; [|discriminate].
  assert (Hh : h = String c s).
  { revert Hidna. unfold idna. rewrite Hascii. cbv zeta.
    destruct (negb _); [discriminate|].
    destruct (64 <=? _)%nat; [discriminate|]. now intros [= <-]. }
  subst h.
  destruct (all_chars (in_set host_allowed) (String c s)) eqn:Hallowed;
    cbv [negb]; [|discriminate].
  rewrite (host_allowed_not_ipv6 _ Hallowed).
  intros Hset. injection Hset as <-. split; [reflexivity|].
  unfold host_setter, bind, lift, raise.
  change (truthy (PyStr (lower (String c s)))) with true. cbv [negb].
  rewrite (idna_lower _ Hascii Hidna).
  assert (Hlow : all_chars (in_set host_allowed) (lower (String c s)) = true).
  { eapply all_chars_lower; [|exact Hallowed].
    intros d. each_byte d; intros Hd; try reflexivity; discriminate Hd. }
  rewrite Hlow. cbv [negb]. rewrite (host_allowed_not_ipv6 _ Hlow).
  rewrite lower_idempotent. reflexivity.
Qed.

Lemma host_setter_idempotent_ascii_witness :
  let self' := mk None None (Some "example.com") None None None in
  all_chars is_ascii "Example.COM" = true
  /\ @host_setter ascii_text (PyStr "Example.COM") blank = (Ok tt, self')
  /\ exists h,
       _host self' = Some h
       /\ @host_setter ascii_text (PyStr h) self' = (Ok tt, self').
Proof.
  intros self'.
  assert (Hascii : all_chars is_ascii "Example.COM" = true) by reflexivity.
  assert (Hset : @host_setter ascii_text (PyStr "Example.COM") blank = (Ok tt, self'))
    by reflexivity.
  exact (conj Hascii (conj Hset
           (@host_setter_idempotent_ascii ascii_text _ _ _ Hascii Hset))).
Defined.

(** X10: whenever the port setter succeeds, setting the port again to
    the value it stored succeeds and leaves the object as it is. *)
Theorem port_setter_idempotent `{Externals} :
  forall (v : pyval) (self self' : URL.t),
    port_setter v self = (Ok tt, self') ->
    exists stored,
      _port self' = Some stored
      /\ port_setter stored self' = (Ok tt, self').
Proof.
  intros v self self'. unfold port_setter at 1.
  destruct (truthy v) eqn:Hv; cbv [negb].
  - destruct v as [|s|z].
    + discriminate Hv.
    + destruct (isdigit s) eqn:Hd; cbv [negb]; [|discriminate].
      intros Hset. injection Hset as <-. exists (PyStr s).
      split; [reflexivity|]. unfold port_setter. rewrite Hv, Hd. reflexivity.
    + intros Hset. injection Hset as <-. exists (PyInt z).
      split; [reflexivity|]. unfold port_setter. rewrite Hv. reflexivity.
  - intros Hset. injection Hset as <-. exists PyNone.
    split; reflexivity.
Qed.

Lemma port_setter_idempotent_witness :
  let self' := mk None None None (Some (PyStr "8080")) None None in
  @port_setter ascii_text (PyStr "8080") blank = (Ok tt, self')
  /\ exists stored,
       _port self' = Some stored
       /\ @port_setter ascii_text stored self' = (Ok tt, self').
Proof.
  intros self'.
  assert (Hset : @port_setter ascii_text (PyStr "8080") blank = (Ok tt, self'))
    by reflexivity.
  exact (conj Hset (@port_setter_idempotent ascii_text _ _ _ Hset)).
Defined.

End StoredForms.

(** ** URL: what a setter changes, and when *)

Section SetterEffects.
Import PyStr Parse Words Shapes.
Import URL.

(** X11: each of the five setters raises before it assigns: when one
    raises, the object is as it was before the call.  For the authority
    setter this rests on the host being assigned first. *)
Theorem url_setters_raise_before_assigning `{Externals} :
  forall self : URL.t,
    (forall s e, fst (scheme_setter s self) = Raise e ->
                 snd (scheme_setter s self) = self)
    /\ (forall v e, fst (userinfo_setter v self) = Raise e ->
                    snd (userinfo_setter v self) = self)
    /\ (forall v e, fst (host_setter v self) = Raise e ->
                    snd (host_setter v self) = self)
    /\ (forall v e, fst (port_setter v self) = Raise e ->
                    snd (port_setter v self) = self)
    /\ (forall v e, fst (authority_setter v self) = Raise e ->
                    snd (authority_setter v self) = self).
Proof.
  intros self. repeat split; intros x e Hraise.
  - exact (scheme_setter_keeps_on_raise x self e Hraise).
  - exact (userinfo_setter_keeps_on_raise x self e Hraise).
  - exact (host_setter_keeps_on_raise x self e Hraise).
  - exact (port_setter_keeps_on_raise x self e Hraise).
  - exact (authority_setter_keeps_on_raise x self e Hraise).
Qed.

Lemma url_setters_raise_before_assigning_witness :
  let self := mk (Some "http") (Some (PyStr "bob")) (Some "old.org")
                 (Some (PyStr "8080")) None None in
  fst (@authority_setter ascii_text (PyStr "alice@:443") self)
  = Raise (ValueError "Host cannot be empty.")
  /\ snd (@authority_setter ascii_text (PyStr "alice@:443") self) = self.
Proof.
  intros self.
  assert (Hraise : fst (@authority_setter ascii_text (PyStr "alice@:443") self)
                   = Raise (ValueError "Host cannot be empty.")) by reflexivity.
  destruct (@url_setters_raise_before_assigning ascii_text self)
    as [_ [_ [_ [_ Hauthority]]]].
  exact (conj Hraise (Hauthority _ _ Hraise)).
Defined.

Ltac all_branches :=
  unfold scheme_setter, userinfo_setter, host_setter, port_setter,
         bind, lift, raise, ret, set_scheme, set_userinfo, set_host, set_port;
  repeat match goal with
         | |- context [if ?b then _ else _] => destruct b
         | |- context [match ?r with Ok _ => _ | Raise _ => _ end] => destruct r
         | |- context [match ?v with PyNone => _ | PyStr _ => _ | PyInt _ => _ end] =>
             destruct v
         end;
  simpl; repeat split.

(** X12: a setter of one component never changes another: the scheme
    setter leaves userinfo, host and port as they were, and so on for the
    userinfo, host and port setters, whether they return or raise. *)
Theorem component_setters_touch_one_attribute `{Externals} :
  forall self : URL.t,
    (forall s, let self' := snd (scheme_setter s self) in
               _userinfo self' = _userinfo self
               /\ _host self' = _host self /\ _port self' = _port self)
    /\ (forall v, let self' := snd (userinfo_setter v self) in
                  _scheme self' = _scheme self
                  /\ _host self' = _host self /\ _port self' = _port self)
    /\ (forall v, let self' := snd (host_setter v self) in
                  _scheme self' = _scheme self
                  /\ _userinfo self' = _userinfo self /\ _port self' = _port self)
    /\ (forall v, let self' := snd (port_setter v self) in
                  _scheme self' = _scheme self
                  /\ _userinfo self' = _userinfo self /\ _host self' = _host self).
Proof.
  intros self. split; [|split; [|split]]; intros x; cbv zeta; all_branches.
Qed.

Lemma host_setter_keeps_userinfo `{Externals} (v : pyval) (self : URL.t) :
  _userinfo (snd (host_setter v self)) = _userinfo self.
Proof. all_branches. Qed.

Lemma scheme_setter_keeps_others (s : string) (self : URL.t) :
  _userinfo (snd (scheme_setter s self)) = _userinfo self
  /\ _host (snd (scheme_setter s self)) = _host self
  /\ _port (snd (scheme_setter s self)) = _port self.
Proof. all_branches. Qed.

End SetterEffects.

(** ** URL: the authority, set and read *)

Section AuthorityFacts.
Import PyStr Parse Words Shapes.
Import URL.

Lemma quoted_authority_no_at (s : string) :
  mem_char "@" s = false ->
  mem_char "@" (quote "@:" (_clear_unsafe_bytes s)) = false.
Proof.
  intros Hat. apply quote_no_new_char; [reflexivity|].
  now apply clear_unsafe_bytes_absent.
Qed.

(** Without an [@] in the text, the authority setter assigns no
    userinfo. *)
Lemma authority_setter_no_at_keeps_userinfo `{Externals} (s : string) (self : URL.t) :
  mem_char "@" s = false ->
  _userinfo (snd (authority_setter (PyStr s) self)) = _userinfo self.
Proof.
  intros Hat. unfold authority_setter.
  destruct (truthy (PyStr s)); cbv [negb]; [|reflexivity].
  destruct (falsy (_clear_unsafe_bytes s)); [reflexivity|].
  cbv zeta. rewrite (split_no_sep "@" _ (quoted_authority_no_at s Hat)).
  cbn [List.length last].
  change (0 <? 1)%nat with true. change (1 <? 1)%nat with false. cbv iota.
  set (hp := split1 ":" (quote "@:" (_clear_unsafe_bytes s))).
  pose proof (host_setter_keeps_userinfo (PyStr (nth 0 hp "")) self) as Hhost.
  unfold bind.
  destruct (0 <? List.length hp)%nat;
    [destruct (host_setter (PyStr (nth 0 hp "")) self) as [[u|e] self1]|];
    destruct (1 <? List.length hp)%nat; simpl in *; congruence.
Qed.

(** An authority made of tabs, carriage returns and line feeds only is
    dropped without a word: nothing is raised and nothing assigned. *)
Lemma authority_setter_unsafe_only `{Externals} (s : string) (self : URL.t) :
  s <> "" -> all_chars unsafe_byte s = true ->
  authority_setter (PyStr s) self = (Ok tt, self).
Proof.
  intros Hne Hunsafe. unfold authority_setter.
  destruct s as [|c s]; [contradiction|].
  change (truthy (PyStr (String c s))) with true. cbv [negb].
  now rewrite (clear_unsafe_bytes_all _ Hunsafe).
Qed.

(** X13: a URL can be constructed without a host: with a valid scheme
    and an authority made of tabs, carriage returns and line feeds only,
    the constructor returns, and the object has no host, no userinfo and
    no port attribute. *)
Theorem init_with_unsafe_only_authority_has_no_host `{Externals} :
  forall (scheme s : string) (path : path_arg) (query : query_arg)
         (segment : pyval) (self : URL.t),
    s <> "" ->
    all_chars unsafe_byte s = true ->
    scheme_setter scheme blank = (Ok tt, self) ->
    URL.new (mk_args scheme (PyStr s) PyNone PyNone PyNone path query segment)
    = Ok self
    /\ _host self = None /\ _userinfo self = None /\ _port self = None.
Proof.
  intros scheme s path query segment self Hne Hunsafe Hscheme.
  split.
  - unfold URL.new, __init__, bind. cbn [arg_scheme arg_authority arg_host
      arg_port arg_userinfo arg_path arg_query]. rewrite Hscheme.
    destruct s as [|c s]; [contradiction|].
    change (truthy (PyStr (String c s))) with true.
    change (truthy PyNone) with false. cbv [andb orb negb].
    rewrite (authority_setter_unsafe_only (String c s) self Hne Hunsafe).
    reflexivity.
  - destruct (scheme_setter_keeps_others scheme blank) as [Hu [Hh Hp]].
    rewrite Hscheme in Hu, Hh, Hp. simpl in Hu, Hh, Hp. auto.
Qed.

Lemma init_with_unsafe_only_authority_has_no_host_witness :
  let tab := String (ascii_of_N 9) "" in
  let self := mk (Some "http") None None None None None in
  tab <> ""
  /\ all_chars unsafe_byte tab = true
  /\ scheme_setter "http" blank = (Ok tt, self)
  /\ @URL.new ascii_text
       (mk_args "http" (PyStr tab) PyNone PyNone PyNone PathNone QueryNone PyNone)
     = Ok self
  /\ _host self = None /\ _userinfo self = None /\ _port self = None.
Proof.
  intros tab self.
  assert (Hne : tab <> "") by discriminate.
  assert (Hunsafe : all_chars unsafe_byte tab = true) by reflexivity.
  assert (Hscheme : scheme_setter "http" blank = (Ok tt, self)) by reflexivity.
  exact (conj Hne (conj Hunsafe (conj Hscheme
           (@init_with_unsafe_only_authority_has_no_host ascii_text
              "http" tab PathNone QueryNone PyNone self Hne Hunsafe Hscheme)))).
Defined.

(** X14: on a URL constructed from an authority that holds no [@], the
    authority cannot be read back: the constructor never assigns the
    userinfo attribute, and the getter raises. *)
Theorem authority_getter_raises_after_init_without_userinfo `{Externals} :
  forall (a : args) (s : string) (self : URL.t),
    arg_authority a = PyStr s ->
    s <> "" ->
    mem_char "@" s = false ->
    URL.new a = Ok self ->
    _userinfo self = None
    /\ exists e, fst (authority_getter self) = Raise e.
Proof.
  intros a s self Hauth Hne Hat Hnew.
  assert (Huserinfo : _userinfo self = None).
  { revert Hnew. unfold URL.new, __init__, bind. rewrite Hauth.
    destruct (scheme_setter (arg_scheme a) blank) as [[u|e] self1] eqn:Hscheme;
      [|discriminate].
    destruct s as [|c s]; [contradiction|].
    change (truthy (PyStr (String c s))) with true. cbv [negb andb].
    destruct (truthy (arg_host a) || truthy (arg_port a) || truthy (arg_userinfo a));
      [discriminate|].
    pose proof (authority_setter_no_at_keeps_userinfo (String c s) self1 Hat) as Hkeep.
    destruct (authority_setter (PyStr (String c s)) self1) as [[u'|e] self2];
      [|discriminate].
    unfold ret. intros Hok. injection Hok as <-.
    simpl in Hkeep. rewrite Hkeep.
    destruct (scheme_setter_keeps_others (arg_scheme a) blank) as [Hu _].
    rewrite Hscheme in Hu. exact Hu. }
  split; [exact Huserinfo|].
  unfold authority_getter, host_getter, userinfo_getter, read, bind, raise.
  destruct (_host self) as [h|]; [|eexists; reflexivity].
  destruct (falsy h); [eexists; reflexivity|].
  rewrite Huserinfo. eexists; reflexivity.
Qed.

Lemma authority_getter_raises_after_init_without_userinfo_witness :
  let a := mk_args "http" (PyStr "example.com:8080") PyNone PyNone PyNone
                   PathNone QueryNone PyNone in
  let self := mk (Some "http") None (Some "example.com") (Some (PyStr "8080"))
                 None None in
  @URL.new ascii_text a = Ok self
  /\ _userinfo self = None
  /\ exists e, fst (authority_getter self) = Raise e.
Proof.
  intros a self.
  assert (Hnew : @URL.new ascii_text a = Ok self) by reflexivity.
  assert (Hne : "example.com:8080" <> "") by discriminate.
  exact (conj Hnew
           (@authority_getter_raises_after_init_without_userinfo ascii_text
              a "example.com:8080" self eq_refl Hne eq_refl Hnew)).
Defined.

(** What the getter returns once the three attributes are assigned and
    the host is not empty. *)
Lemma authority_getter_composes (self : URL.t) (h : string) (ui pt : pyval) :
  _host self = Some h -> falsy h = false ->
  _userinfo self = Some ui -> _port self = Some pt ->
  authority_getter self
  = (Ok (compose (if truthy ui then Some (py_str ui) else None) h
                 (if truthy pt then Some (py_str pt) else None)), self).
Proof.
  intros Hh Hne Hui Hpt.
  unfold authority_getter, host_getter, userinfo_getter, port_getter, read, bind, ret.
  rewrite Hh, Hne, Hui, Hh, Hpt. unfold compose.
  destruct (truthy ui), (truthy pt); simpl;
    rewrite ?append_assoc, ?append_empty_r; reflexivity.
Qed.

Lemma host_setter_plain `{Externals} (h : string) (self : URL.t) :
  falsy h = false -> idna h = Ok h ->
  all_chars (in_set host_allowed) h = true ->
  host_setter (PyStr h) self = set_host (lower h) self.
Proof.
  intros Hne Hidna Hallowed. unfold host_setter, bind, lift.
  unfold truthy. rewrite Hne, Hidna, Hallowed. cbv [negb].
  now rewrite (host_allowed_not_ipv6 _ Hallowed).
Qed.

Lemma authority_text_fixed (s : string) :
  all_chars (in_set authority_text_chars) s = true ->
  quote "@:" (_clear_unsafe_bytes s) = s.
Proof.
  intros Hs. rewrite clear_unsafe_bytes_fixed.
  - apply quote_fixed. eapply all_chars_impl; [|exact Hs].
    intros c. each_byte c; intros Hc; try reflexivity; discriminate Hc.
  - intros c Hc. eapply all_chars_not_mem; [|exact Hs].
    destruct (unsafe_byte_cases c Hc) as [-> | [-> | ->]]; reflexivity.
Qed.

Lemma unreserved_authority_text (s : string) :
  unreserved_segment s = true ->
  all_chars (in_set authority_text_chars) s = true.
Proof.
  apply all_chars_impl.
  intros c. each_byte c; intros Hc; try reflexivity; discriminate Hc.
Qed.

(** X15: an authority [user "@" host ":" port] whose three parts are
    not empty, whose user is written with unreserved characters and [:],
    whose host is a lower-case name of unreserved characters that the
    IDNA codec returns as it is, and whose port is written with
    unreserved characters, is read back by the getter exactly as it was
    set.  The port need not be numeric. *)
Theorem authority_set_then_get `{Externals} :
  forall (u h p : string) (self : URL.t),
    u <> "" -> h <> "" -> p <> "" ->
    all_chars (in_set plain_userinfo_chars) u = true ->
    unreserved_segment h = true ->
    lower h = h ->
    idna h = Ok h ->
    unreserved_segment p = true ->
    exists self',
      authority_setter (PyStr (u ++ "@" ++ h ++ ":" ++ p)) self = (Ok tt, self')
      /\ authority_getter self' = (Ok (u ++ "@" ++ h ++ ":" ++ p), self').
Proof.
  intros u h p self Hu Hh Hp Huc Hhc Hlow Hidna Hpc.
  assert (Hut : all_chars (in_set authority_text_chars) u = true).
  { eapply all_chars_impl; [|exact Huc].
    intros c. each_byte c; intros Hc; try reflexivity; discriminate Hc. }
  pose proof (unreserved_authority_text h Hhc) as Hht.
  pose proof (unreserved_authority_text p Hpc) as Hpt.
  assert (Hwhole : all_chars (in_set authority_text_chars)
                             (u ++ "@" ++ h ++ ":" ++ p) = true).
  { rewrite !all_chars_app, Hut, Hht, Hpt. reflexivity. }
  assert (Hu_at : mem_char "@" u = false)
    by (eapply all_chars_not_mem; [|exact Huc]; reflexivity).
  assert (Hh_at : mem_char "@" h = false)
    by (eapply all_chars_not_mem; [|exact Hhc]; reflexivity).
  assert (Hh_colon : mem_char ":" h = false)
    by (eapply all_chars_not_mem; [|exact Hhc]; reflexivity).
  assert (Hp_at : mem_char "@" p = false)
    by (eapply all_chars_not_mem; [|exact Hpc]; reflexivity).
  assert (Hqh : quote "@:" h = h) by (apply unreserved_segment_fixed, Hhc).
  assert (Hqp : quote "@:" p = p) by (apply unreserved_segment_fixed, Hpc).
  assert (Hh_host : all_chars (in_set host_allowed) h = true).
  { eapply all_chars_impl; [|exact Hhc].
    intros c. each_byte c; intros Hc; try reflexivity; discriminate Hc. }
  assert (Hh_falsy : falsy h = false) by (destruct h; [contradiction | reflexivity]).
  set (self' := mk (_scheme self) (Some (PyStr u)) (Some h) (Some (PyStr p))
                   (path self) (query self)).
  exists self'. split.
  - rewrite (authority_setter_pieces (u ++ "@" ++ h ++ ":" ++ p) [u] h (Some p) self).
    + cbn [hd_error when_some]. unfold bind.
      rewrite Hqh, Hqp, (host_setter_plain h self Hh_falsy Hidna Hh_host), Hlow.
      reflexivity.
    + pose proof (authority_text_fixed _ Hwhole) as Hfixed.
      intros Hclear. rewrite Hclear in Hfixed.
      destruct u; [contradiction | discriminate Hfixed].
    + exact Hh_at.
    + exact Hh_colon.
    + intros p' Hp'. injection Hp' as <-. exact Hp_at.
    + rewrite (authority_text_fixed _ Hwhole).
      change (u ++ "@" ++ h ++ ":" ++ p) with (u ++ String "@" (h ++ String ":" p)).
      rewrite split_app_sep, (split_no_sep "@" u Hu_at).
      unfold escaped_remainder. rewrite Hqh, Hqp.
      rewrite split_no_sep; [reflexivity|].
      rewrite mem_char_app, Hh_at. simpl. exact Hp_at.
  - rewrite (authority_getter_composes self' h (PyStr u) (PyStr p));
      try reflexivity; [|exact Hh_falsy].
    unfold truthy. destruct u; [contradiction|]. destruct p; [contradiction|].
    cbn [falsy negb py_str]. unfold compose.
    rewrite append_assoc. reflexivity.
Qed.

Lemma authority_set_then_get_witness :
  exists self',
    @authority_setter ascii_text (PyStr ("user:pw" ++ "@" ++ "example.com" ++ ":" ++ "http"))
                      blank = (Ok tt, self')
    /\ authority_getter self'
       = (Ok ("user:pw" ++ "@" ++ "example.com" ++ ":" ++ "http"), self').
Proof.
  apply (@authority_set_then_get ascii_text "user:pw" "example.com" "http" blank);
    first [discriminate | reflexivity].
Defined.

Lemma idna_ascii_returns_argument `{Externals} (h r : string) :
  all_chars is_ascii h = true -> idna h = Ok r -> r = h.
Proof.
  intros Hascii. unfold idna. rewrite Hascii. cbv zeta.
  destruct (negb _); [discriminate|].
  destruct (64 <=? _)%nat; [discriminate|]. now intros [= <-].
Qed.

(** X16: a URL constructed from its components (no authority, an ASCII
    host) has all three attributes of the authority assigned, and its
    authority reads [[userinfo "@"] host [":" port]] with the escaped
    userinfo, the lower-cased host and the port as text; the userinfo and
    the port appear only when the arguments given for them are truthy. *)
Theorem init_from_components_then_authority `{Externals} :
  forall (a : args) (h : string) (self : URL.t),
    truthy (arg_authority a) = false ->
    arg_host a = PyStr h ->
    all_chars is_ascii h = true ->
    URL.new a = Ok self ->
    authority_getter self
    = (Ok (compose (stored_userinfo (arg_userinfo a)) (lower h)
                   (stored_port (arg_port a))), self).
Proof.
  intros a h self Hauth Hhost Hascii. unfold URL.new, __init__, bind.
  rewrite Hauth, Hhost. cbv [andb negb].
  destruct (scheme_setter (arg_scheme a) blank) as [[u0|e0] self0]; [|discriminate].
  destruct h as [|c h]; [discriminate|].
  change (truthy (PyStr (String c h))) with true. cbv [negb].
  set (host := String c h) in *.
  assert (Hfalsy : falsy (lower host) = false) by reflexivity.
  (* the userinfo setter *)
  assert (Hui : exists ui,
             userinfo_setter (arg_userinfo a) self0 = set_userinfo ui self0
             /\ stored_userinfo (arg_userinfo a)
                = (if truthy ui then Some (py_str ui) else None)
             \/ exists e, userinfo_setter (arg_userinfo a) self0 = (Raise e, self0)).
  { unfold userinfo_setter, stored_userinfo.
    destruct (arg_userinfo a) as [|s|z].
    - exists PyNone. left. split; reflexivity.
    - destruct s as [|d s].
      + exists PyNone. left. split; reflexivity.
      + exists (PyStr (quote userinfo_safe (String d s))). left.
        change (truthy (PyStr (String d s))) with true. cbv [negb].
        rewrite userinfo_quote_allowed. cbv [negb]. split; [reflexivity|].
        unfold truthy. rewrite quote_falsy. reflexivity.
    - exists PyNone. destruct (truthy (PyInt z)) eqn:Hz; cbv [negb].
      + right. eexists. reflexivity.
      + left. split; reflexivity. }
  destruct Hui as [ui [[Hset Hstored] | [e Hraise]]];
    [rewrite Hset | rewrite Hraise; discriminate].
  unfold set_userinfo at 1.
  (* the host setter *)
  unfold host_setter at 1. change (truthy (PyStr host)) with true. cbv [negb].
  unfold bind, lift.
  destruct (idna host) as [r|e] eqn:Hidna; [|discriminate].
  rewrite (idna_ascii_returns_argument _ _ Hascii Hidna).
  destruct (all_chars (in_set host_allowed) host) eqn:Hallowed;
    cbv [negb]; [|discriminate].
  rewrite (host_allowed_not_ipv6 _ Hallowed). unfold set_host at 1.
  (* the port setter *)
  assert (Hpt : forall st,
             (exists pt, port_setter (arg_port a) st = set_port pt st
                         /\ stored_port (arg_port a)
                            = (if truthy pt then Some (py_str pt) else None))
             \/ exists e, port_setter (arg_port a) st = (Raise e, st)).
  { intros st. unfold port_setter, stored_port.
    destruct (truthy (arg_port a)) eqn:Hp; cbv [negb].
    - destruct (arg_port a) as [|s|z] eqn:Hport.
      + discriminate Hp.
      + destruct (isdigit s); cbv [negb].
        * left. exists (PyStr s). rewrite Hp. split; reflexivity.
        * right. eexists. reflexivity.
      + left. exists (PyInt z). rewrite Hp. split; reflexivity.
    - left. exists PyNone. split; reflexivity. }
  match goal with
  | |- context [port_setter (arg_port a) ?st] =>
      destruct (Hpt st) as [[pt [Hport Hsp]] | [e Hraise]];
      [rewrite Hport | rewrite Hraise; discriminate]
  end.
  unfold set_port, ret. intros Hself. injection Hself as <-.
  rewrite Hstored, Hsp.
  apply authority_getter_composes; reflexivity.
Qed.

Lemma init_from_components_then_authority_witness :
  let a := mk_args "HTTPS" PyNone (PyStr "j doe") (PyStr "Example.COM")
                   (PyInt 8443) PathNone QueryNone PyNone in
  exists self,
    @URL.new ascii_text a = Ok self
    /\ authority_getter self = (Ok "j%20doe@example.com:8443", self).
Proof.
  intros a.
  exists (mk (Some "https") (Some (PyStr "j%20doe")) (Some "example.com")
             (Some (PyInt 8443)) None None).
  assert (Hnew : @URL.new ascii_text a
                 = Ok (mk (Some "https") (Some (PyStr "j%20doe"))
                          (Some "example.com") (Some (PyInt 8443)) None None))
    by reflexivity.
  split; [exact Hnew|].
  exact (@init_from_components_then_authority ascii_text a "Example.COM" _
           eq_refl eq_refl eq_refl Hnew).
Defined.

End AuthorityFacts.

(** ** URL: the username and password accessors *)

Section AccessorFacts.
Import PyStr Parse Words Shapes.
Import URL Accessors.

(** A byte that [quote] escapes and that no escape is written with does
    not occur in the output. *)
Lemma quote_escapes_char (safe : string) (c : ascii) (s : string) :
  is_safe safe c = false ->
  mem_char c pct_alphabet = false ->
  mem_char c (quote safe s) = false.
Proof.
  intros Hunsafe Hpct. induction s as [|d s IH]; [reflexivity|].
  cbn [quote]. rewrite mem_char_app, IH, orb_false_r.
  unfold quote_byte. destruct (is_safe safe d) eqn:Hd.
  - simpl. rewrite orb_false_r.
    destruct (Ascii.eqb_spec c d) as [->|]; [congruence | reflexivity].
  - eapply all_chars_not_mem; [exact Hpct | apply pct_encode_alphabet].
Qed.

Lemma accessor_value_no_colon (v : string) :
  mem_char ":" (quote accessor_safe v) = false.
Proof. apply quote_escapes_char; reflexivity. Qed.

Lemma split_colon_join (l : list string) :
  l <> [] ->
  Forall (fun x => mem_char ":" x = false) l ->
  split ":" (join ":" l) = l.
Proof. apply (split_join ":"). Qed.

(** Text that holds the separator splits into at least two pieces. *)
Lemma split_with_sep (sep : ascii) (s : string) :
  mem_char sep s = true ->
  exists x y rest, split sep s = x :: y :: rest.
Proof.
  induction s as [|c s IH]; [discriminate|].
  cbn [mem_char split]. rewrite Ascii.eqb_sym.
  pose proof (split_not_nil sep s) as Hne.
  destruct (Ascii.eqb c sep).
  - intros _. destruct (split sep s) as [|y rest]; [contradiction|].
    now exists "", y, rest.
  - simpl. intros Hs. destruct (IH Hs) as [x [y [rest ->]]].
    now exists (String c x), y, rest.
Qed.

Lemma userinfo_split_after (l : list string) (self : URL.t) :
  l <> [] ->
  Forall (fun x => mem_char ":" x = false) l ->
  userinfo_split (snd (set_userinfo (PyStr (join ":" l)) self)) = Returns l.
Proof.
  intros Hne Hall. unfold userinfo_split. cbn [set_userinfo snd _userinfo].
  now rewrite split_colon_join.
Qed.

(** X17: on a URL whose userinfo is a string, setting the username
    returns, the username read afterwards is the escaped value (a [:] in
    the value is escaped, so the split is not disturbed), the password
    reads as before, and scheme, host and port are as before. *)
Theorem username_setter_then_getters :
  forall (v s : string) (self : URL.t),
    _userinfo self = Some (PyStr s) ->
    let done := username_setter v self in
    outcome_of done = Returns tt
    /\ outcome_of (username_getter (after done)) = Returns (quote accessor_safe v)
    /\ outcome_of (password_getter (after done)) = outcome_of (password_getter self)
    /\ _scheme (after done) = _scheme self
    /\ _host (after done) = _host self
    /\ _port (after done) = _port self.
Proof.
  intros v s self Hui done. subst done.
  unfold username_setter, piece_setter, username_getter, password_getter.
  assert (Hsplit : userinfo_split self = Returns (split ":" s))
    by (unfold userinfo_split; now rewrite Hui).
  rewrite Hsplit.
  pose proof (split_not_nil ":" s) as Hne.
  pose proof (split_pieces_no_sep ":" s) as Hall.
  destruct (split ":" s) as [|x rest]; [contradiction|].
  inversion Hall as [|? ? Hx Hrest]; subst.
  cbn [assign outcome_of after].
  rewrite userinfo_split_after;
    [|discriminate | constructor; [apply accessor_value_no_colon | exact Hrest]].
  repeat split.
Qed.

Lemma username_setter_then_getters_witness :
  let self := mk (Some "http") (Some (PyStr "bob:secret")) (Some "example.com")
                 (Some PyNone) None None in
  let done := username_setter "al:ice" self in
  outcome_of done = Returns tt
  /\ outcome_of (username_getter (after done)) = Returns "al%3Aice"
  /\ outcome_of (password_getter (after done)) = Returns "secret".
Proof.
  intros self done.
  destruct (username_setter_then_getters "al:ice" "bob:secret" self eq_refl)
    as [Hret [Huser [Hpass _]]].
  exact (conj Hret (conj Huser Hpass)).
Defined.

(** X18: on a URL whose userinfo is a string with a [:], setting the
    password returns, the password read afterwards is the escaped value,
    and the username reads as before. *)
Theorem password_setter_then_getters :
  forall (v s : string) (self : URL.t),
    _userinfo self = Some (PyStr s) ->
    mem_char ":" s = true ->
    let done := password_setter v self in
    outcome_of done = Returns tt
    /\ outcome_of (password_getter (after done)) = Returns (quote accessor_safe v)
    /\ outcome_of (username_getter (after done)) = outcome_of (username_getter self).
Proof.
  intros v s self Hui Hcolon done. subst done.
  unfold password_setter, piece_setter, username_getter, password_getter.
  assert (Hsplit : userinfo_split self = Returns (split ":" s))
    by (unfold userinfo_split; now rewrite Hui).
  rewrite Hsplit.
  pose proof (split_pieces_no_sep ":" s) as Hall.
  destruct (split_with_sep ":" s Hcolon) as [x [y [rest Hpieces]]].
  rewrite Hpieces in *.
  inversion Hall as [|? ? Hx Hyrest]; subst.
  inversion Hyrest as [|? ? Hy Hrest]; subst.
  cbn [assign outcome_of after].
  rewrite userinfo_split_after;
    [|discriminate
     | constructor; [exact Hx|];
       constructor; [apply accessor_value_no_colon | exact Hrest]].
  repeat split.
Qed.

Lemma password_setter_then_getters_witness :
  let self := mk (Some "http") (Some (PyStr "bob:secret")) (Some "example.com")
                 (Some PyNone) None None in
  let done := password_setter "p@ss" self in
  outcome_of done = Returns tt
  /\ outcome_of (password_getter (after done)) = Returns "p%40ss"
  /\ outcome_of (username_getter (after done)) = Returns "bob".
Proof.
  intros self done.
  exact (password_setter_then_getters "p@ss" "bob:secret" self eq_refl eq_refl).
Defined.

(** X19: on a URL whose userinfo is a string without [:], the password
    cannot be set: the setter raises [IndexError] and the object is as it
    was; the getter raises the [IndexError] of the module, whose message
    runs two words together. *)
Theorem password_accessors_without_colon :
  forall (v s : string) (self : URL.t),
    _userinfo self = Some (PyStr s) ->
    mem_char ":" s = false ->
    outcome_of (password_setter v self)
    = Raises (IndexError "list assignment index out of range")
    /\ after (password_setter v self) = self
    /\ outcome_of (password_getter self)
       = Raises (IndexError "Userinfo contained no passwordthat could be retrieved.")
    /\ outcome_of (username_getter self) = Returns s.
Proof.
  intros v s self Hui Hcolon.
  unfold password_setter, piece_setter, password_getter, username_getter.
  assert (Hsplit : userinfo_split self = Returns [s])
    by (unfold userinfo_split; now rewrite Hui, split_no_sep).
  rewrite Hsplit. repeat split.
Qed.

Lemma password_accessors_without_colon_witness :
  let self := mk (Some "http") (Some (PyStr "bob")) (Some "example.com")
                 (Some PyNone) None None in
  outcome_of (password_setter "secret" self)
  = Raises (IndexError "list assignment index out of range")
  /\ after (password_setter "secret" self) = self
  /\ outcome_of (password_getter self)
     = Raises (IndexError "Userinfo contained no passwordthat could be retrieved.")
  /\ outcome_of (username_getter self) = Returns "bob".
Proof.
  intros self.
  exact (password_accessors_without_colon "secret" "bob" self eq_refl eq_refl).
Defined.

(** X20: the password is the text between the first and the second
    [:] of the userinfo, not everything after the first: with userinfo
    [u ":" p ":" rest] the username reads [u], the password reads [p], and
    setting the password replaces [p] alone. *)
Theorem password_is_second_piece :
  forall (u p rest v : string) (self : URL.t),
    mem_char ":" u = false ->
    mem_char ":" p = false ->
    _userinfo self = Some (PyStr (u ++ ":" ++ p ++ ":" ++ rest)) ->
    outcome_of (username_getter self) = Returns u
    /\ outcome_of (password_getter self) = Returns p
    /\ _userinfo (after (password_setter v self))
       = Some (PyStr (u ++ ":" ++ quote accessor_safe v ++ ":" ++ rest)).
Proof.
  intros u p rest v self Hu Hp Hui.
  unfold password_setter, piece_setter, username_getter, password_getter.
  assert (Hsplit : userinfo_split self = Returns (u :: p :: split ":" rest)).
  { unfold userinfo_split. rewrite Hui.
    change (u ++ ":" ++ p ++ ":" ++ rest)
      with (u ++ String ":" (p ++ String ":" rest)).
    now rewrite !split_app_sep, (split_no_sep ":" u Hu), (split_no_sep ":" p Hp). }
  rewrite Hsplit. cbn [item nth_error assign outcome_of after].
  split; [reflexivity|]. split; [reflexivity|].
  cbn [set_userinfo snd _userinfo].
  pose proof (split_not_nil ":" rest) as Hne.
  pose proof (join_split ":" rest) as Hjoin.
  destruct (split ":" rest) as [|r rs]; [contradiction|].
  rewrite !join_cons_cons, Hjoin. reflexivity.
Qed.

Lemma password_is_second_piece_witness :
  let self := mk (Some "http") (Some (PyStr ("bob" ++ ":" ++ "pw" ++ ":" ++ "x:y")))
                 (Some "example.com") (Some PyNone) None None in
  outcome_of (username_getter self) = Returns "bob"
  /\ outcome_of (password_getter self) = Returns "pw"
  /\ _userinfo (after (password_setter "new" self)) = Some (PyStr "bob:new:x:y").
Proof.
  intros self.
  exact (password_is_second_piece "bob" "pw" "x:y" "new" self eq_refl eq_refl eq_refl).
Defined.

Lemma all_chars_split (p : ascii -> bool) (sep : ascii) (s : string) :
  all_chars p s = true ->
  Forall (fun x => all_chars p x = true) (split sep s).
Proof.
  induction s as [|c s IH]; [intros _; repeat constructor|].
  rewrite all_chars_cons. intros H. apply andb_true_iff in H as [Hc Hs].
  specialize (IH Hs). cbn [split].
  destruct (Ascii.eqb c sep); [constructor; [reflexivity | exact IH]|].
  destruct (split sep s) as [|x xs]; [repeat constructor; simpl; now rewrite Hc|].
  inversion IH as [|? ? Hx Hxs]; subst.
  constructor; [|exact Hxs]. rewrite all_chars_cons, Hc, Hx. reflexivity.
Qed.

Lemma assign_keeps_forall (P : string -> Prop) (l l' : list string)
      (i : nat) (v : string) :
  Forall P l -> P v -> assign l i v = Returns l' -> Forall P l'.
Proof.
  intros Hl Hv. revert i l'. induction Hl as [|x l Hx Hl IH]; intros i l'.
  - destruct i; discriminate.
  - destruct i as [|i]; cbn [assign].
    + intros [= <-]. now constructor.
    + destruct (assign l i v) as [l0|e] eqn:Hassign; [|discriminate].
      intros [= <-]. constructor; [exact Hx | now apply (IH i)].
Qed.

Lemma accessor_value_allowed (v : string) :
  all_chars (in_set userinfo_allowed) (quote accessor_safe v) = true.
Proof.
  eapply all_chars_impl; [|apply quote_output_chars].
  intros c. each_byte c; intros Hc; try reflexivity; discriminate Hc.
Qed.

Lemma piece_setter_keeps_allowed (i : nat) (v s : string) (self : URL.t) :
  _userinfo self = Some (PyStr s) ->
  all_chars (in_set userinfo_allowed) s = true ->
  exists u,
    _userinfo (after (piece_setter i v self)) = Some (PyStr u)
    /\ all_chars (in_set userinfo_allowed) u = true.
Proof.
  intros Hui Hs. unfold piece_setter.
  assert (Hsplit : userinfo_split self = Returns (split ":" s))
    by (unfold userinfo_split; now rewrite Hui).
  rewrite Hsplit.
  destruct (assign (split ":" s) i (quote accessor_safe v)) as [l|e] eqn:Hassign.
  - exists (join ":" l). split; [reflexivity|].
    apply all_chars_join; [reflexivity|].
    eapply assign_keeps_forall; [| |exact Hassign].
    + now apply all_chars_split.
    + apply accessor_value_allowed.
  - exists s. split; [exact Hui | exact Hs].
Qed.

(** X21: the accessors keep the userinfo within the characters the
    userinfo setter allows: if the userinfo is written with them before
    the username or the password is set, it is afterwards, whether the
    setter returns or raises. *)
Theorem accessors_keep_userinfo_allowed :
  forall (v s : string) (self : URL.t),
    _userinfo self = Some (PyStr s) ->
    all_chars (in_set userinfo_allowed) s = true ->
    (exists u, _userinfo (after (username_setter v self)) = Some (PyStr u)
               /\ all_chars (in_set userinfo_allowed) u = true)
    /\ (exists u, _userinfo (after (password_setter v self)) = Some (PyStr u)
                  /\ all_chars (in_set userinfo_allowed) u = true).
Proof.
  intros v s self Hui Hs. split; now apply piece_setter_keeps_allowed with (s := s).
Qed.

Lemma accessors_keep_userinfo_allowed_witness :
  let self := mk (Some "http") (Some (PyStr "bob:secret")) (Some "example.com")
                 (Some PyNone) None None in
  (exists u, _userinfo (after (username_setter "a b/c" self)) = Some (PyStr u)
             /\ all_chars (in_set userinfo_allowed) u = true)
  /\ (exists u, _userinfo (after (password_setter "a b/c" self)) = Some (PyStr u)
                /\ all_chars (in_set userinfo_allowed) u = true).
Proof.
  intros self.
  exact (accessors_keep_userinfo_allowed "a b/c" "bob:secret" self eq_refl eq_refl).
Defined.

Lemma port_setter_keeps_userinfo `{Externals} (v : pyval) (self : URL.t) :
  _userinfo (snd (port_setter v self)) = _userinfo self.
Proof.
  unfold port_setter, raise, set_port.
  destruct (truthy v); cbv [negb]; [|reflexivity].
  destruct v as [|s|z]; try reflexivity.
  destruct (isdigit s); reflexivity.
Qed.

(** X22: a URL constructed from its components without a userinfo has
    the userinfo [None], and the accessors cannot give it one: the
    username and password setters raise [AttributeError] and leave the
    object as it was, and so do the getters. *)
Theorem accessors_raise_without_userinfo `{Externals} :
  forall (a : args) (v : string) (self : URL.t),
    truthy (arg_authority a) = false ->
    truthy (arg_userinfo a) = false ->
    URL.new a = Ok self ->
    _userinfo self = Some PyNone
    /\ outcome_of (username_setter v self) = Raises (Builtin (AttributeError "split"))
    /\ after (username_setter v self) = self
    /\ outcome_of (password_setter v self) = Raises (Builtin (AttributeError "split"))
    /\ after (password_setter v self) = self
    /\ outcome_of (username_getter self) = Raises (Builtin (AttributeError "split"))
    /\ outcome_of (password_getter self) = Raises (Builtin (AttributeError "split")).
Proof.
  intros a v self Hauth Hui Hnew.
  assert (Hnone : _userinfo self = Some PyNone).
  { revert Hnew. unfold URL.new, __init__, bind. rewrite Hauth. cbv [andb negb].
    destruct (scheme_setter (arg_scheme a) blank) as [[u0|e0] self0]; [|discriminate].
    destruct (truthy (arg_host a)); cbv [negb]; [|discriminate].
    unfold userinfo_setter at 1. rewrite Hui. cbv [negb]. unfold set_userinfo at 1.
    match goal with
    | |- context [host_setter (arg_host a) ?st] =>
        pose proof (host_setter_keeps_userinfo (arg_host a) st) as Hhost;
        destruct (host_setter (arg_host a) st) as [[u1|e1] self1]; [|discriminate]
    end.
    pose proof (port_setter_keeps_userinfo (arg_port a) self1) as Hport.
    destruct (port_setter (arg_port a) self1) as [[u2|e2] self2]; [|discriminate].
    unfold ret. intros Hok. injection Hok as <-.
    simpl in Hhost, Hport. congruence. }
  split; [exact Hnone|].
  unfold username_setter, password_setter, piece_setter, username_getter,
         password_getter, userinfo_split.
  rewrite Hnone. repeat split.
Qed.

Lemma accessors_raise_without_userinfo_witness :
  let a := mk_args "http" PyNone PyNone (PyStr "example.com") PyNone
                   PathNone QueryNone PyNone in
  let self := mk (Some "http") (Some PyNone) (Some "example.com")
                 (Some PyNone) None None in
  @URL.new ascii_text a = Ok self
  /\ outcome_of (username_setter "bob" self) = Raises (Builtin (AttributeError "split"))
  /\ after (username_setter "bob" self) = self.
Proof.
  intros a self.
  assert (Hnew : @URL.new ascii_text a = Ok self) by reflexivity.
  destruct (@accessors_raise_without_userinfo ascii_text a "bob" self
              eq_refl eq_refl Hnew) as [_ [Hraise [Hafter _]]].
  exact (conj Hnew (conj Hraise Hafter)).
Defined.

End AccessorFacts.

(** ** URL: what the authority setter stores without checking *)

Section AuthorityUnchecked.
Import PyStr Parse Words Shapes.
Import URL.

Lemma quote_keeps_safe_char (safe : string) (c : ascii) (s : string) :
  is_safe safe c = true -> mem_char c s = true -> mem_char c (quote safe s) = true.
Proof.
  intros Hsafe. induction s as [|d s IH]; [discriminate|].
  cbn [mem_char quote]. rewrite mem_char_app.
  destruct (Ascii.eqb_spec c d) as [<-|Hcd]; simpl.
  - intros _. unfold quote_byte. rewrite Hsafe. simpl.
    now rewrite Ascii.eqb_refl.
  - intros Hs. rewrite (IH Hs). apply orb_true_r.
Qed.

Lemma all_chars_and_absent (p : ascii -> bool) (c : ascii) (s : string) :
  all_chars p s = true -> mem_char c s = false ->
  all_chars (fun d => p d && negb (Ascii.eqb c d)) s = true.
Proof.
  induction s as [|d s IH]; [reflexivity|].
  rewrite !all_chars_cons. cbn [mem_char]. intros Hp Hc.
  apply andb_true_iff in Hp as [Hd Hs]. apply orb_false_iff in Hc as [Hcd Hcs].
  now rewrite Hd, Hcd, (IH Hs Hcs).
Qed.

(** The first [@]-separated piece of an escaped authority passes the
    character check of the userinfo setter. *)
Lemma first_piece_allowed (q : string) :
  all_chars (fun c => is_safe "@:" c || mem_char c pct_alphabet) q = true ->
  all_chars (in_set userinfo_allowed) (nth 0 (split "@" q) "") = true.
Proof.
  intros Hq.
  pose proof (all_chars_split _ "@" q Hq) as Hchars.
  pose proof (split_pieces_no_sep "@" q) as Hno_at.
  destruct (split "@" q) as [|x xs]; [reflexivity|]. cbn [nth].
  inversion Hchars as [|? ? Hx _]; subst.
  inversion Hno_at as [|? ? Hat _]; subst.
  eapply all_chars_impl; [|exact (all_chars_and_absent _ "@" x Hx Hat)].
  intros c. each_byte c; intros Hc; try reflexivity; discriminate Hc.
Qed.

(** X23: the userinfo the authority setter assigns, which it does not
    pass through the userinfo setter, is all the same written with the
    characters that setter allows: whenever the setter returns on a text
    with an [@], the userinfo is a string of allowed characters. *)
Theorem authority_setter_userinfo_is_allowed `{Externals} :
  forall (s : string) (self self' : URL.t),
    mem_char "@" s = true ->
    authority_setter (PyStr s) self = (Ok tt, self') ->
    exists u,
      _userinfo self' = Some (PyStr u)
      /\ all_chars (in_set userinfo_allowed) u = true.
Proof.
  intros s self self' Hat.
  assert (Hclear : mem_char "@" (_clear_unsafe_bytes s) = true)
    by (rewrite clear_unsafe_bytes_mem, Hat; reflexivity).
  assert (Hq : mem_char "@" (quote "@:" (_clear_unsafe_bytes s)) = true)
    by (apply quote_keeps_safe_char; [reflexivity | exact Hclear]).
  unfold authority_setter.
  destruct (truthy (PyStr s)); cbv [negb]; [|discriminate].
  destruct (falsy (_clear_unsafe_bytes s)) eqn:Hf;
    [apply falsy_true in Hf; rewrite Hf in Hclear; discriminate|].
  cbv zeta.
  pose proof (first_piece_allowed _ (quote_output_chars "@:" (_clear_unsafe_bytes s)))
    as Hallowed.
  destruct (split_with_sep "@" _ Hq) as [x [y [rest Hsplit]]].
  rewrite Hsplit in *. cbn [List.length nth] in *.
  change (1 <? S (S (List.length rest)))%nat with true. cbv iota.
  unfold bind at 1.
  match goal with
  | |- context [let (_, _) := ?m self in _] => destruct (m self) as [[u0|e0] self0]
  end; [|discriminate].
  unfold set_userinfo. intros Hok. injection Hok as <-.
  exists x. split; [reflexivity | exact Hallowed].
Qed.

Lemma authority_setter_userinfo_is_allowed_witness :
  let self' := mk None (Some (PyStr "a%21b%2520c")) (Some "example.com") None
                  None None in
  mem_char "@" "a!b%20c@example.com" = true
  /\ @authority_setter ascii_text (PyStr "a!b%20c@example.com") blank = (Ok tt, self')
  /\ exists u,
       _userinfo self' = Some (PyStr u)
       /\ all_chars (in_set userinfo_allowed) u = true.
Proof.
  intros self'.
  assert (Hat : mem_char "@" "a!b%20c@example.com" = true) by reflexivity.
  assert (Hset : @authority_setter ascii_text (PyStr "a!b%20c@example.com") blank
                 = (Ok tt, self')) by reflexivity.
  exact (conj Hat (conj Hset
           (@authority_setter_userinfo_is_allowed ascii_text _ _ _ Hat Hset))).
Defined.

(** X24: the authority setter stores a port the port setter refuses:
    for a host it accepts and a port written with unreserved characters
    that is not all digits, [host ":" port] is accepted and the port
    stored as it is, while the port setter raises on the same port. *)
Theorem authority_setter_stores_unchecked_port `{Externals} :
  forall (h p : string) (self : URL.t),
    h <> "" -> p <> "" ->
    unreserved_segment h = true ->
    idna h = Ok h ->
    unreserved_segment p = true ->
    isdigit p = false ->
    authority_setter (PyStr (h ++ ":" ++ p)) self
    = (Ok tt, mk (_scheme self) (_userinfo self) (Some (lower h))
                 (Some (PyStr p)) (path self) (query self))
    /\ port_setter (PyStr p) self
       = (Raise (ValueError "Port cannot be a non-numerical value."), self).
Proof.
  intros h p self Hh Hp Hhc Hidna Hpc Hdigit.
  pose proof (unreserved_authority_text h Hhc) as Hht.
  pose proof (unreserved_authority_text p Hpc) as Hpt.
  assert (Hwhole : all_chars (in_set authority_text_chars) (h ++ ":" ++ p) = true)
    by (rewrite !all_chars_app, Hht, Hpt; reflexivity).
  assert (Hh_at : mem_char "@" h = false)
    by (eapply all_chars_not_mem; [|exact Hhc]; reflexivity).
  assert (Hh_colon : mem_char ":" h = false)
    by (eapply all_chars_not_mem; [|exact Hhc]; reflexivity).
  assert (Hp_at : mem_char "@" p = false)
    by (eapply all_chars_not_mem; [|exact Hpc]; reflexivity).
  assert (Hqh : quote "@:" h = h) by (apply unreserved_segment_fixed, Hhc).
  assert (Hqp : quote "@:" p = p) by (apply unreserved_segment_fixed, Hpc).
  assert (Hh_host : all_chars (in_set host_allowed) h = true).
  { eapply all_chars_impl; [|exact Hhc].
    intros c. each_byte c; intros Hc; try reflexivity; discriminate Hc. }
  assert (Hh_falsy : falsy h = false) by (destruct h; [contradiction | reflexivity]).
  split.
  - rewrite (authority_setter_pieces (h ++ ":" ++ p) [] h (Some p) self).
    + cbn [hd_error when_some]. unfold bind.
      rewrite Hqh, Hqp, (host_setter_plain h self Hh_falsy Hidna Hh_host).
      reflexivity.
    + pose proof (authority_text_fixed _ Hwhole) as Hfixed.
      intros Hclear. rewrite Hclear in Hfixed.
      destruct h; [contradiction | discriminate Hfixed].
    + exact Hh_at.
    + exact Hh_colon.
    + intros p' Hp'. injection Hp' as <-. exact Hp_at.
    + rewrite (authority_text_fixed _ Hwhole).
      unfold escaped_remainder. rewrite Hqh, Hqp.
      rewrite split_no_sep; [reflexivity|].
      rewrite mem_char_app, Hh_at. simpl. exact Hp_at.
  - unfold port_setter. destruct p; [contradiction|].
    change (truthy (PyStr (String a p))) with true. cbv [negb].
    now rewrite Hdigit.
Qed.

Lemma authority_setter_stores_unchecked_port_witness :
  @authority_setter ascii_text (PyStr ("example.com" ++ ":" ++ "80a")) blank
  = (Ok tt, mk None None (Some "example.com") (Some (PyStr "80a")) None None)
  /\ @port_setter ascii_text (PyStr "80a") blank
     = (Raise (ValueError "Port cannot be a non-numerical value."), blank).
Proof.
  apply (@authority_setter_stores_unchecked_port ascii_text "example.com" "80a" blank);
    first [discriminate | reflexivity].
Defined.

(** The [@]-separated pieces of an escaped authority
    [[user "@"] host [":" port]]: the last one is the escaped remainder. *)
Lemma authority_pieces_shape (user : option string) (host : string)
      (port : option string) :
  mem_char "@" host = false ->
  (forall p, port = Some p -> mem_char "@" p = false) ->
  exists before,
    split "@" (quote "@:" (compose user host port))
    = (before ++ [escaped_remainder host port])%list.
Proof.
  intros Hat Hport. pose proof (host_port_no_at host port Hat Hport) as Hrem.
  unfold compose. destruct user as [u|].
  - exists (split "@" (quote "@:" u)).
    rewrite quote_app, quote_host_port, quote_app.
    change (quote "@:" "@") with "@".
    now rewrite append_sep_assoc, split_app_sep, (split_no_sep _ _ Hrem).
  - exists []. simpl append at 1. rewrite quote_host_port.
    now rewrite (split_no_sep _ _ Hrem).
Qed.

(** X25: an authority with nothing where the host should be, such as
    ["user@"], [":80"] or ["user@:80"], is refused with the error of the
    empty host, and the object is as it was. *)
Theorem authority_setter_refuses_empty_host `{Externals} :
  forall (user port : option string) (authority : string) (self : URL.t),
    _clear_unsafe_bytes authority = compose user "" port ->
    compose user "" port <> "" ->
    (forall p, port = Some p -> mem_char "@" p = false) ->
    authority_setter (PyStr authority) self
    = (Raise (ValueError "Host cannot be empty."), self).
Proof.
  intros user port authority self Hclear Hne Hport.
  destruct (authority_pieces_shape user "" port eq_refl Hport) as [before Hsplit].
  rewrite (authority_setter_pieces authority before "" port self);
    [reflexivity | congruence | reflexivity | reflexivity | exact Hport|].
  rewrite Hclear. exact Hsplit.
Qed.

Lemma authority_setter_refuses_empty_host_witness :
  let self := mk (Some "http") (Some (PyStr "bob")) (Some "old.org")
                 (Some (PyStr "8080")) None None in
  @authority_setter ascii_text (PyStr "alice@:443") self
  = (Raise (ValueError "Host cannot be empty."), self).
Proof.
  intros self.
  apply (@authority_setter_refuses_empty_host ascii_text
           (Some "alice") (Some "443") "alice@:443" self);
    [reflexivity | discriminate | intros p Hp; injection Hp as <-; reflexivity].
Defined.

End AuthorityUnchecked.
